(** * MediSense AI web client: confidence triage, analyze guard and chat history

    A shallow embedding of the client-side logic of the repository:
    - [web/src/pages/Upload.tsx]: [invalidMissing], [canAnalyze], [groups],
      [optionalConfirmationKeys], [requiredKeys], [onSubmit], [onAnalyze],
      [onGetAdvice];
    - the second copy of the upload page (the file with the review step),
      embedded in [Module UploadReview];
    - [web/src/lib/api.ts]: the shapes declared for the answers of
      [ingestReport] and [predictWithFeatures];
    - [web/src/pages/Triage.tsx] and [web/src/components/ChatBot.tsx]: the
      greeting with its risk wording, the questions and answers, and the chat
      histories kept in localStorage;
    - [web/src/App.tsx] with [Login.tsx] (routing), [Manual.tsx], the
      "Analyze" button of the history page and the chatbot's key metrics.

    A lookup [obj[k]] and the test [k in obj] see the dictionary's own
    entries and the members every object inherits from [Object.prototype].
    A handler that awaits the server is split at its [await]: what runs on
    the click, and what runs when the answer arrives, over the state of that
    moment and the values the handler's closure kept.

    JavaScript numbers are IEEE-754 doubles and are modelled by Rocq's
    primitive floats: [c >= 0.95] is [PrimFloat.leb 0.95 c], with the same
    rounding of the literals and the same behaviour on NaN.  JavaScript
    objects used as dictionaries are [gmap string _]; arrays are lists. *)

From Stdlib Require Import Floats.
From stdpp Require Import gmap strings list fin_maps.

Set Warnings "-inexact-float,-clear-no-such-hyp".
Set Default Proof Using "Type".

(** ** JavaScript values *)

(** The values found in a [Record<string, any>]: what a JSON payload or a
    text input puts there, [JObject] standing for any object, array or
    function. *)
Inductive JsValue : Type :=
| JUndefined
| JNull
| JBool (b : bool)
| JNum (n : float)
| JStr (s : string)
| JObject.

(** [v === '' || v === null || v === undefined] *)
Definition is_blank (v : JsValue) : bool :=
  match v with
  | JStr s => bool_decide (s = "")
  | JNull => true
  | JUndefined => true
  | _ => false
  end.

(** [Number.isFinite(n)]: neither NaN nor an infinity. *)
Definition Number_isFinite (n : float) : bool :=
  negb (PrimFloat.is_nan n) && negb (PrimFloat.is_infinity n).

(** [c >= t] and [c < t] on numbers. *)
Definition js_ge (c t : float) : bool := PrimFloat.leb t c.
Definition js_lt (c t : float) : bool := PrimFloat.ltb c t.

(** The property names every object literal inherits from
    [Object.prototype]. *)
Definition Object_prototype_members : list string :=
  ["constructor"; "__defineGetter__"; "__defineSetter__"; "hasOwnProperty";
   "__lookupGetter__"; "__lookupSetter__"; "isPrototypeOf";
   "propertyIsEnumerable"; "toString"; "valueOf"; "__proto__";
   "toLocaleString"].

(** [k in obj]: an own entry or an inherited member. *)
Definition js_in {V : Type} (o : gmap string V) (k : string) : bool :=
  bool_decide (is_Some (o !! k)) || bool_decide (k ∈ Object_prototype_members).

(** [obj[k]] on a dictionary: the own entry when there is one, else the
    inherited member (a function or an object) when [k] names one, else
    [undefined]. *)
Definition js_get (o : gmap string JsValue) (k : string) : JsValue :=
  match o !! k with
  | Some v => v
  | None =>
      if bool_decide (k ∈ Object_prototype_members) then JObject else JUndefined
  end.

(** [Object.keys(o)]: every own key once.  The order is the enumeration
    order of the map, not JavaScript's insertion order; the properties
    below speak of membership and repetition only. *)
Definition Object_keys {V : Type} (o : gmap string V) : list string :=
  (map_to_list o).*1.

(** [Array.from(new Set(l))]: the elements of [l] in order of first
    occurrence, each once. *)
Fixpoint set_from (seen l : list string) : list string :=
  match l with
  | [] => []
  | x :: l' =>
      if bool_decide (x ∈ seen) then set_from seen l'
      else x :: set_from (x :: seen) l'
  end.

Definition Array_from_Set (l : list string) : list string := set_from [] l.

(** [l.slice(-n)]: the last [n] elements, the whole array when it is shorter. *)
Definition slice_last {A : Type} (n : nat) (l : list A) : list A :=
  drop (length l - n) l.

(** ** web/src/lib/api.ts *)

Module Api.

(** [export type Task = 'heart' | 'diabetes' | 'parkinsons' | 'general'] *)
Inductive Task : Type := heart | diabetes | parkinsons | general.

#[export] Instance Task_eq_dec : EqDecision Task.
Proof. solve_decision. Defined.

(** One entry of [extracted_meta]:
    [{ value: any; unit?: string|null; confidence?: number; source?: string }].
    The payload is unchecked JSON, so every member is a [JsValue];
    an absent member is [JUndefined]. *)
Record Meta : Type := mkMeta {
  m_value : JsValue;
  m_unit : JsValue;
  m_confidence : JsValue;
  m_source : JsValue
}.

(** What [ingestReport] returns. *)
Record IngestResponse : Type := mkIngestResponse {
  report_id : string;
  extracted : gmap string JsValue;
  missing_fields : list string;
  warnings : option (list string);
  extracted_meta : option (gmap string Meta);
  ingest_task : string;
  raw_text : option string;
  out_of_range_fields : option (list string)
}.

(** What [predictWithFeatures] returns. *)
Record PredictResponse : Type := mkPredictResponse {
  pred_task : Task;
  label : float;
  probability : float;
  health_score : float;
  top_contributors : option (list string);
  pred_warnings : option (list string);
  prediction_id : string
}.

End Api.

(** ** web/src/pages/Upload.tsx *)

Module Upload.
Import Api.

(** The prediction kept in [localStorage] and passed to the triage page. *)
Record Prediction : Type := mkPrediction {
  p_label : float;
  p_probability : float;
  p_health_score : float
}.

(** The object stored under the key ['latest_result']. *)
Record LatestResult : Type := mkLatestResult {
  lr_task : Task;
  lr_features : gmap string JsValue;
  lr_prediction : option Prediction;
  lr_prediction_id : option string;
  lr_lifestyle : gmap string JsValue;
  lr_symptoms : gmap string JsValue
}.

(** The component state ([useState] cells) and the storage slot it writes. *)
Record State : Type := mkState {
  task : Task;
  file : option string;
  loading : bool;
  result : option PredictResponse;
  error : option string;
  reportId : option string;
  features : gmap string JsValue;
  missing : list string;
  extractedMeta : gmap string Meta;
  lifestyle : gmap string JsValue;
  symptoms : gmap string JsValue;
  latest_result : option LatestResult
}.

(** [const haveIngest = useMemo(() => !!reportId, [reportId])]:
    [null] and the empty string are falsy. *)
Definition haveIngest (st : State) : bool :=
  match reportId st with
  | Some id => negb (bool_decide (id = ""))
  | None => false
  end.

(** [const havePred = useMemo(() => !!result?.pred, [result])] *)
Definition havePred (st : State) : bool :=
  match result st with Some _ => true | None => false end.

Definition numericFieldsByTask (t : Task) : gset string :=
  match t with
  | heart => list_to_set ["age"; "trestbps"; "chol"; "thalach"; "oldpeak"; "ca"]
  | diabetes =>
      list_to_set ["Pregnancies"; "Glucose"; "BloodPressure"; "SkinThickness";
                   "Insulin"; "BMI"; "DiabetesPedigreeFunction"; "Age"]
  | parkinsons =>
      list_to_set ["fo"; "fhi"; "flo"; "jitter_percent"; "jitter_abs"; "rap";
                   "ppq"; "ddp"; "shimmer"; "shimmer_db"; "apq3"; "apq5"; "apq";
                   "dda"; "nhr"; "hnr"; "rpde"; "dfa"; "spread1"; "spread2";
                   "d2"; "ppe"]
  | general => ∅
  end.

Section Validation.
(** The built-in conversion [Number(v)]; the page only relies on it being
    a function from values to doubles. *)
Variable Number : JsValue → float.

(** One turn of [for (const k of missing) { ... }]. *)
Definition invalidMissing_visit (st : State) (bad : list string) (k : string)
  : list string :=
  if bool_decide (k = "age") || bool_decide (k = "Age") then bad
  else
    let v := js_get (features st) k in
    if is_blank v then bad ++ [k]
    else if bool_decide (k ∈ numericFieldsByTask (task st)) then
      let n := Number v in
      if negb (Number_isFinite n) then bad ++ [k] else bad
    else bad.

Definition invalidMissing (st : State) : list string :=
  if negb (haveIngest st) then []
  else foldl (invalidMissing_visit st) [] (missing st).

(** [haveIngest && invalidMissing.length === 0 && task !== 'general'] *)
Definition canAnalyze (st : State) : bool :=
  haveIngest st
  && bool_decide (length (invalidMissing st) = 0)
  && negb (bool_decide (task st = general)).

(** The button at the bottom of the review block, rendered only when
    [haveIngest]: the advice link in general mode, otherwise the analyze
    button with [disabled={!canAnalyze || loading}]. *)
Inductive ActionButton : Type :=
| AdviceLink
| AnalyzeButton (disabled : bool).

Definition actionButton (st : State) : option ActionButton :=
  if haveIngest st then
    if bool_decide (task st = general) then Some AdviceLink
    else Some (AnalyzeButton (negb (canAnalyze st) || loading st))
  else None.

(** [onAnalyze] can be triggered: its only caller is the [onClick] of an
    enabled analyze button. *)
Definition analyzeAvailable (st : State) : bool :=
  match actionButton st with
  | Some (AnalyzeButton false) => true
  | _ => false
  end.
End Validation.

(** [extractedMeta[k]?.confidence] *)
Definition confidence_at (extractedMeta : gmap string Meta) (k : string) : JsValue :=
  match extractedMeta !! k with
  | Some m => m_confidence m
  | None => JUndefined
  end.

Record Groups : Type := mkGroups {
  high : list string;
  medium : list string;
  low : list string
}.

(** The callback of [Object.keys(extractedMeta || {}).forEach(k => ...)]. *)
Definition groups_visit (extractedMeta : gmap string Meta) (missing : list string)
    (g : Groups) (k : string) : Groups :=
  if bool_decide (k ∈ missing) then g
  else if bool_decide (k = "age") || bool_decide (k = "Age") then g
  else
    match confidence_at extractedMeta k with
    | JNum c =>
        if js_ge c 0.95 then mkGroups (high g ++ [k]) (medium g) (low g)
        else if js_ge c 0.90 then mkGroups (high g) (medium g ++ [k]) (low g)
        else mkGroups (high g) (medium g) (low g ++ [k])
    | _ => g
    end.

Definition groups (extractedMeta : gmap string Meta) (missing : list string) : Groups :=
  foldl (groups_visit extractedMeta missing) (mkGroups [] [] [])
    (Object_keys extractedMeta).

Definition optionalConfirmationKeys (g : Groups) : list string :=
  let allKeys := high g ++ medium g in
  filter (λ k, k ≠ "age" ∧ k ≠ "Age" ∧ k ≠ "sex") allKeys.

Definition requiredKeys (missing : list string) (g : Groups) : list string :=
  let set := Array_from_Set (missing ++ low g) in
  filter (λ k, k ≠ "age" ∧ k ≠ "Age" ∧ k ≠ "sex") set.

(** The [forEach] of [onSubmit] that adds a placeholder for every missing
    field the extraction did not return: [if (!(k in f)) f[k] = '']. *)
Definition placeholder (f : gmap string JsValue) (k : string) : gmap string JsValue :=
  if js_in f k then f else <[k := JStr ""]> f.

(** [onSubmit] run to its end with nothing happening in between: [ingest]
    is the outcome of the awaited [ingestReport] call, [inr msg] when it
    throws.  [onSubmit_click] and [onSubmit_settle] below split it at the
    [await]. *)
Definition onSubmit (st : State) (ingest : IngestResponse + string) : State :=
  match file st with
  | None => st
  | Some _ =>
      match ingest with
      | inl r =>
          let f := foldl placeholder (extracted r) (missing_fields r) in
          mkState (task st) (file st) false None None
            (Some (report_id r)) f (missing_fields r)
            (default ∅ (extracted_meta r))
            (lifestyle st) (symptoms st)
            (if bool_decide (task st = general)
             then Some (mkLatestResult (task st) f None None
                          (lifestyle st) (symptoms st))
             else latest_result st)
      | inr msg =>
          mkState (task st) (file st) false None (Some msg)
            (reportId st) (features st) (missing st) (extractedMeta st)
            (lifestyle st) (symptoms st) (latest_result st)
      end
  end.

(** [onAnalyze] run to its end with nothing happening in between: [pred]
    is the outcome of the awaited
    [predictWithFeatures(task, features, reportId, token)].
    [onAnalyze_click] and [onAnalyze_settle] below split it at the
    [await]. *)
Definition onAnalyze (st : State) (pred : PredictResponse + string) : State :=
  if negb (haveIngest st) then st
  else
    match pred with
    | inl r =>
        mkState (task st) (file st) false (Some r) None
          (reportId st) (features st) (missing st) (extractedMeta st)
          (lifestyle st) (symptoms st)
          (Some (mkLatestResult (task st) (features st)
                   (Some (mkPrediction (label r) (probability r) (health_score r)))
                   (Some (prediction_id r))
                   (lifestyle st) (symptoms st)))
    | inr msg =>
        mkState (task st) (file st) false (result st) (Some msg)
          (reportId st) (features st) (missing st) (extractedMeta st)
          (lifestyle st) (symptoms st) (latest_result st)
    end.

(** The [onChange] of a field's input:
    [setFeatures(prev => ({ ...prev, [k]: e.target.value }))]. *)
Definition onChangeFeature (st : State) (k : string) (v : JsValue) : State :=
  mkState (task st) (file st) (loading st) (result st) (error st)
    (reportId st) (<[k := v]> (features st)) (missing st)
    (extractedMeta st) (lifestyle st) (symptoms st) (latest_result st).

(** [onGetAdvice]: the [reportData] handed to the triage page through
    [navigate('/triage', { state: { reportData } })]; nothing happens without
    a prediction. *)
Definition onGetAdvice (st : State) : option LatestResult :=
  if negb (havePred st) then None
  else
    Some (mkLatestResult (task st) (features st)
            (match result st with
             | Some r => Some (mkPrediction (label r) (probability r) (health_score r))
             | None => None
             end)
            (match result st with
             | Some r => Some (prediction_id r)
             | None => None
             end)
            (lifestyle st) (symptoms st)).

(** The [File] picked in the file input: its name and MIME type. *)
Record File : Type := mkFile {
  file_name : string;
  file_type : string
}.

(** The [onChange] of the file input: a file with a type other than PDF is
    refused with an error, anything else becomes the chosen file. *)
Definition onChooseFile (st : State) (f : option File) : State :=
  match f with
  | Some picked =>
      if negb (bool_decide (file_type picked = ""))
         && negb (bool_decide (file_type picked = "application/pdf"))
      then
        mkState (task st) None (loading st) (result st)
          (Some "Please upload a PDF file (.pdf)")
          (reportId st) (features st) (missing st) (extractedMeta st)
          (lifestyle st) (symptoms st) (latest_result st)
      else
        mkState (task st) (Some (file_name picked)) (loading st) (result st)
          (error st) (reportId st) (features st) (missing st) (extractedMeta st)
          (lifestyle st) (symptoms st) (latest_result st)
  | None =>
      mkState (task st) None (loading st) (result st) (error st)
        (reportId st) (features st) (missing st) (extractedMeta st)
        (lifestyle st) (symptoms st) (latest_result st)
  end.

(** The [onChange] of the task select: [setTask(e.target.value as Task)]. *)
Definition onSelectTask (st : State) (t : Task) : State :=
  mkState t (file st) (loading st) (result st) (error st)
    (reportId st) (features st) (missing st) (extractedMeta st)
    (lifestyle st) (symptoms st) (latest_result st).

(** [setLifestyle(s => ({ ...s, [k]: v }))] and
    [setSymptoms(prev => ({ ...prev, [k]: e.target.checked }))]. *)
Definition onChangeLifestyle (st : State) (k : string) (v : JsValue) : State :=
  mkState (task st) (file st) (loading st) (result st) (error st)
    (reportId st) (features st) (missing st) (extractedMeta st)
    (<[k := v]> (lifestyle st)) (symptoms st) (latest_result st).

Definition onChangeSymptom (st : State) (k : string) (checked : bool) : State :=
  mkState (task st) (file st) (loading st) (result st) (error st)
    (reportId st) (features st) (missing st) (extractedMeta st)
    (lifestyle st) (<[k := JBool checked]> (symptoms st)) (latest_result st).

(** The page as first rendered ([useState] defaults), over whatever
    ['latest_result'] the browser already holds. *)
Definition initial (stored : option LatestResult) : State :=
  mkState heart None false None None None ∅ [] ∅
    (list_to_map [("smoking", JStr "no"); ("alcohol", JStr "no");
                  ("exercise", JStr "medium"); ("diet", JStr "balanced");
                  ("stress_level", JStr "medium"); ("sleep_hours", JNum 7)])
    (list_to_map [("chest_pain", JBool false); ("shortness_of_breath", JBool false);
                  ("fatigue", JBool false); ("dizziness", JBool false);
                  ("sweating", JBool false); ("pain_during_exercise", JBool false);
                  ("swelling_legs", JBool false)])
    stored.

(** What the user and the server can make happen on the page. *)
Inductive Event : Type :=
| SelectTask (t : Task)
| ChooseFile (f : option File)
| Submit (ingest : IngestResponse + string)
| ClickAnalyze (pred : PredictResponse + string)
| ChangeFeature (k : string) (v : JsValue)
| ChangeLifestyle (k : string) (v : JsValue)
| ChangeSymptom (k : string) (checked : bool).

Section Events.
Variable Number : JsValue → float.

(** One event.  A click on the analyze button only reaches [onAnalyze] when
    the button is rendered and enabled. *)
Definition step (st : State) (e : Event) : State :=
  match e with
  | SelectTask t => onSelectTask st t
  | ChooseFile f => onChooseFile st f
  | Submit ingest => onSubmit st ingest
  | ClickAnalyze pred =>
      if analyzeAvailable Number st then onAnalyze st pred else st
  | ChangeFeature k v => onChangeFeature st k v
  | ChangeLifestyle k v => onChangeLifestyle st k v
  | ChangeSymptom k checked => onChangeSymptom st k checked
  end.

Definition run (st : State) (events : list Event) : State := foldl step st events.
End Events.

(** *** The handlers split at their [await] *)

(** What [onSubmit] and [onAnalyze] read after the [await] from their
    closure: the cells as rendered when the button was clicked. *)
Record Closure : Type := mkClosure {
  c_task : Task;
  c_features : gmap string JsValue;
  c_reportId : option string;
  c_lifestyle : gmap string JsValue;
  c_symptoms : gmap string JsValue
}.

Definition closure_of (st : State) : Closure :=
  mkClosure (task st) (features st) (reportId st) (lifestyle st) (symptoms st).

(** [onSubmit] up to the [await]: nothing without a file, else
    [setLoading(true); setError(null); setResult(null)] and the request
    goes out. *)
Definition onSubmit_click (st : State) : State * option Closure :=
  match file st with
  | None => (st, None)
  | Some _ =>
      (mkState (task st) (file st) true None None
         (reportId st) (features st) (missing st) (extractedMeta st)
         (lifestyle st) (symptoms st) (latest_result st),
       Some (closure_of st))
  end.

(** [onSubmit] from the answer on, over the state [st] of that moment: the
    setters replace their cells, the general-mode stash uses the task,
    lifestyle and symptoms of the closure [c], and [finally] ends the
    loading. *)
Definition onSubmit_settle (c : Closure) (ingest : IngestResponse + string)
    (st : State) : State :=
  match ingest with
  | inl r =>
      let f := foldl placeholder (extracted r) (missing_fields r) in
      mkState (task st) (file st) false (result st) (error st)
        (Some (report_id r)) f (missing_fields r)
        (default ∅ (extracted_meta r))
        (lifestyle st) (symptoms st)
        (if bool_decide (c_task c = general)
         then Some (mkLatestResult (c_task c) f None None
                      (c_lifestyle c) (c_symptoms c))
         else latest_result st)
  | inr msg =>
      mkState (task st) (file st) false (result st) (Some msg)
        (reportId st) (features st) (missing st) (extractedMeta st)
        (lifestyle st) (symptoms st) (latest_result st)
  end.

(** [onAnalyze] up to the [await]: nothing without an ingested report, else
    [setLoading(true); setError(null)] and the request goes out with the
    task, features and report id of the closure. *)
Definition onAnalyze_click (st : State) : State * option Closure :=
  if negb (haveIngest st) then (st, None)
  else
    (mkState (task st) (file st) true (result st) None
       (reportId st) (features st) (missing st) (extractedMeta st)
       (lifestyle st) (symptoms st) (latest_result st),
     Some (closure_of st)).

(** [onAnalyze] from the answer on: a prediction is displayed and stashed
    with the task, features, lifestyle and symptoms of the closure; a
    failure only sets the error. *)
Definition onAnalyze_settle (c : Closure) (pred : PredictResponse + string)
    (st : State) : State :=
  match pred with
  | inl r =>
      mkState (task st) (file st) false (Some r) (error st)
        (reportId st) (features st) (missing st) (extractedMeta st)
        (lifestyle st) (symptoms st)
        (Some (mkLatestResult (c_task c) (c_features c)
                 (Some (mkPrediction (label r) (probability r) (health_score r)))
                 (Some (prediction_id r))
                 (c_lifestyle c) (c_symptoms c)))
  | inr msg =>
      mkState (task st) (file st) false (result st) (Some msg)
        (reportId st) (features st) (missing st) (extractedMeta st)
        (lifestyle st) (symptoms st) (latest_result st)
  end.

(** The request a handler is waiting on. *)
Inductive Pending : Type :=
| AwaitingIngest (c : Closure)
| AwaitingPrediction (c : Closure).

(** The page with the request in flight, if any. *)
Record Page : Type := mkPage {
  ui : State;
  pending : option Pending
}.

(** What the user and the server can make happen, clicks and answers
    apart: between a click and its answer the inputs stay live. *)
Inductive Action : Type :=
| PickTask (t : Task)
| PickFile (f : option File)
| ClickUpload
| IngestAnswer (ingest : IngestResponse + string)
| ClickAnalyzeButton
| PredictionAnswer (pred : PredictResponse + string)
| EditFeature (k : string) (v : JsValue)
| EditLifestyle (k : string) (v : JsValue)
| EditSymptom (k : string) (checked : bool).

Section Actions.
Variable Number : JsValue → float.

(** One action.  The upload button is [disabled={!file || loading}], the
    analyze button [disabled={!canAnalyze || loading}]; an answer reaches
    the handler that waits for it. *)
Definition act (p : Page) (a : Action) : Page :=
  match a with
  | PickTask t => mkPage (onSelectTask (ui p) t) (pending p)
  | PickFile f => mkPage (onChooseFile (ui p) f) (pending p)
  | ClickUpload =>
      if loading (ui p) then p
      else
        match onSubmit_click (ui p) with
        | (st, Some c) => mkPage st (Some (AwaitingIngest c))
        | (st, None) => mkPage st (pending p)
        end
  | IngestAnswer ingest =>
      match pending p with
      | Some (AwaitingIngest c) => mkPage (onSubmit_settle c ingest (ui p)) None
      | _ => p
      end
  | ClickAnalyzeButton =>
      if analyzeAvailable Number (ui p) then
        match onAnalyze_click (ui p) with
        | (st, Some c) => mkPage st (Some (AwaitingPrediction c))
        | (st, None) => mkPage st (pending p)
        end
      else p
  | PredictionAnswer pred =>
      match pending p with
      | Some (AwaitingPrediction c) => mkPage (onAnalyze_settle c pred (ui p)) None
      | _ => p
      end
  | EditFeature k v => mkPage (onChangeFeature (ui p) k v) (pending p)
  | EditLifestyle k v => mkPage (onChangeLifestyle (ui p) k v) (pending p)
  | EditSymptom k checked => mkPage (onChangeSymptom (ui p) k checked) (pending p)
  end.

Definition play (p : Page) (actions : list Action) : Page := foldl act p actions.
End Actions.

(** The page as first rendered, with no request in flight. *)
Definition opened (stored : option LatestResult) : Page :=
  mkPage (initial stored) None.

End Upload.

(** ** The upload page with the review step (second copy of the page) *)

Module UploadReview.
Import Api.

Record Groups : Type := mkGroups {
  high : list string;
  medium : list string;
  low : list string
}.

(** The callback of [Object.keys(extractedMeta || {}).forEach((k) => ...)]:
    this copy does not return early on ['age']. *)
Definition groups_visit (extractedMeta : gmap string Meta) (missing : list string)
    (g : Groups) (k : string) : Groups :=
  if bool_decide (k ∈ missing) then g
  else
    match Upload.confidence_at extractedMeta k with
    | JNum c =>
        if js_ge c 0.95 then mkGroups (high g ++ [k]) (medium g) (low g)
        else if js_ge c 0.9 then mkGroups (high g) (medium g ++ [k]) (low g)
        else mkGroups (high g) (medium g) (low g ++ [k])
    | _ => g
    end.

Definition groups (extractedMeta : gmap string Meta) (missing : list string) : Groups :=
  foldl (groups_visit extractedMeta missing) (mkGroups [] [] [])
    (Object_keys extractedMeta).

Definition optionalConfirmationKeys (g : Groups) : list string :=
  let allKeys := high g ++ medium g in
  filter (λ k, k ≠ "sex") allKeys.

Definition requiredKeys (missing : list string) (g : Groups) : list string :=
  let set := Array_from_Set (missing ++ low g) in
  filter (λ k, k ≠ "sex") set.

(** The object this copy stores under ['latest_result']: the members of
    [Upload.LatestResult] with the report text and the out-of-range fields. *)
Record LatestResult : Type := mkLatestResult {
  lr_task : Task;
  lr_features : gmap string JsValue;
  lr_prediction : option Upload.Prediction;
  lr_prediction_id : option string;
  lr_lifestyle : gmap string JsValue;
  lr_symptoms : gmap string JsValue;
  lr_extracted_text : string;
  lr_highlights : list string
}.

(** The [useState] cells of this copy and the storage slot it writes. *)
Record State : Type := mkState {
  task : Task;
  file : option string;
  loading : bool;
  result : option PredictResponse;
  error : option string;
  reportId : option string;
  features : gmap string JsValue;
  missing : list string;
  extractedMeta : gmap string Meta;
  rawText : string;
  outOfRange : list string;
  showExtractedValues : bool;
  requireConfirmation : bool;
  confirmedExtracted : bool;
  lifestyle : gmap string JsValue;
  symptoms : gmap string JsValue;
  latest_result : option LatestResult
}.

(** [!!reportId] *)
Definition haveIngest (st : State) : bool :=
  match reportId st with
  | Some id => negb (bool_decide (id = ""))
  | None => false
  end.

(** [confirmExtractedValues] and [reviewExtractedValues]. *)
Definition confirmExtractedValues (st : State) : State :=
  mkState (task st) (file st) (loading st) (result st) (error st) (reportId st)
    (features st) (missing st) (extractedMeta st) (rawText st) (outOfRange st)
    false (requireConfirmation st) true
    (lifestyle st) (symptoms st) (latest_result st).

Definition reviewExtractedValues (st : State) : State :=
  mkState (task st) (file st) (loading st) (result st) (error st) (reportId st)
    (features st) (missing st) (extractedMeta st) (rawText st) (outOfRange st)
    true (requireConfirmation st) false
    (lifestyle st) (symptoms st) (latest_result st).

(** The [onToggle] of the extracted-values panel and its "Hide Values"
    button: [setShowExtractedValues(open)]. *)
Definition onToggleExtractedValues (st : State) (open : bool) : State :=
  mkState (task st) (file st) (loading st) (result st) (error st) (reportId st)
    (features st) (missing st) (extractedMeta st) (rawText st) (outOfRange st)
    open (requireConfirmation st) (confirmedExtracted st)
    (lifestyle st) (symptoms st) (latest_result st).

(** The checkbox "Require value confirmation":
    [setRequireConfirmation(e.target.checked)]. *)
Definition onToggleRequireConfirmation (st : State) (checked : bool) : State :=
  mkState (task st) (file st) (loading st) (result st) (error st) (reportId st)
    (features st) (missing st) (extractedMeta st) (rawText st) (outOfRange st)
    (showExtractedValues st) checked (confirmedExtracted st)
    (lifestyle st) (symptoms st) (latest_result st).

(** [onSubmit] of this copy: besides what [Upload.onSubmit] does it keeps
    the report text and the out-of-range fields and resets the
    confirmation. *)
Definition onSubmit (st : State) (ingest : IngestResponse + string) : State :=
  match file st with
  | None => st
  | Some _ =>
      match ingest with
      | inl r =>
          let f := foldl Upload.placeholder (extracted r) (missing_fields r) in
          mkState (task st) (file st) false None None
            (Some (report_id r)) f (missing_fields r)
            (default ∅ (extracted_meta r))
            (default "" (raw_text r))
            (default [] (out_of_range_fields r))
            (requireConfirmation st) (requireConfirmation st)
            (negb (requireConfirmation st))
            (lifestyle st) (symptoms st)
            (if bool_decide (task st = general)
             then Some (mkLatestResult (task st) f None None
                          (lifestyle st) (symptoms st)
                          (default "" (raw_text r))
                          (default [] (out_of_range_fields r)))
             else latest_result st)
      | inr msg =>
          mkState (task st) (file st) false None (Some msg)
            (reportId st) (features st) (missing st) (extractedMeta st)
            (rawText st) (outOfRange st) (showExtractedValues st)
            (requireConfirmation st) (confirmedExtracted st)
            (lifestyle st) (symptoms st) (latest_result st)
      end
  end.

(** The cells [invalidMissing] and [canAnalyze] read.  Their text in this
    copy is that of [Upload.tsx], so they are the same functions of these
    cells. *)
Definition validated (st : State) : Upload.State :=
  Upload.mkState (task st) (file st) (loading st) (result st) (error st)
    (reportId st) (features st) (missing st) (extractedMeta st)
    (lifestyle st) (symptoms st) None.

Definition canAnalyze (Number : JsValue → float) (st : State) : bool :=
  Upload.canAnalyze Number (validated st).

(** The analyze button of this copy is rendered and enabled:
    [haveIngest], [task !== 'general'] and [disabled={!canAnalyze || loading}]. *)
Definition analyzeAvailable (Number : JsValue → float) (st : State) : bool :=
  Upload.analyzeAvailable Number (validated st).

(** The arguments of a [predictWithFeatures] call. *)
Record PredictRequest : Type := mkPredictRequest {
  req_task : Task;
  req_features : gmap string JsValue;
  req_report_id : option string
}.

(** [onAnalyze] of this copy.  The second component is the call to the
    prediction endpoint the handler goes on to make once it has the access
    token, [None] when it returns before; [pred] is the outcome of the
    awaited calls, [inr] when one of them throws. *)
Definition onAnalyze (st : State) (pred : PredictResponse + string)
  : State * option PredictRequest :=
  if negb (haveIngest st) then (st, None)
  else if requireConfirmation st && negb (confirmedExtracted st) then
    (mkState (task st) (file st) (loading st) (result st)
       (Some "Please review and confirm the extracted values before analysis.")
       (reportId st) (features st) (missing st) (extractedMeta st)
       (rawText st) (outOfRange st) true
       (requireConfirmation st) (confirmedExtracted st)
       (lifestyle st) (symptoms st) (latest_result st),
     None)
  else
    let request := mkPredictRequest (task st) (features st) (reportId st) in
    match pred with
    | inl r =>
        (mkState (task st) (file st) false (Some r) None
           (reportId st) (features st) (missing st) (extractedMeta st)
           (rawText st) (outOfRange st) (showExtractedValues st)
           (requireConfirmation st) (confirmedExtracted st)
           (lifestyle st) (symptoms st)
           (Some (mkLatestResult (task st) (features st)
                    (Some (Upload.mkPrediction (label r) (probability r)
                             (health_score r)))
                    (Some (prediction_id r))
                    (lifestyle st) (symptoms st) (rawText st) (outOfRange st))),
         Some request)
    | inr msg =>
        (mkState (task st) (file st) false (result st) (Some msg)
           (reportId st) (features st) (missing st) (extractedMeta st)
           (rawText st) (outOfRange st) (showExtractedValues st)
           (requireConfirmation st) (confirmedExtracted st)
           (lifestyle st) (symptoms st) (latest_result st),
         Some request)
    end.

End UploadReview.

(** ** Chat messages and the browser's localStorage *)

Module Chat.

(** ['user' | 'ai'] on the triage page, ['user' | 'assistant'] in the
    floating chatbot. *)
Inductive Role : Type := user | ai | assistant.

(** The [timestamp] member of a message: absent, an invalid [Date], or the
    [Date] at [ms] milliseconds.  [JSON.stringify] leaves an absent member
    out, writes an invalid [Date] as [null] and a valid one as its ISO text;
    the same three forms describe the member of a parsed message. *)
Inductive Timestamp : Type :=
| NoDate
| InvalidDate
| DateAt (ms : Z).

(** A chat message; [msg_id] is only set by the floating chatbot, and the
    greeting of the triage page carries no timestamp. *)
Record Message : Type := mkMessage {
  msg_id : option string;
  role : Role;
  content : string;
  timestamp : Timestamp
}.

(** [{ ...msg, timestamp: new Date(msg.timestamp) }] on a message parsed
    from the stored JSON: [new Date(undefined)] is an invalid date,
    [new Date(null)] the epoch, [new Date(iso)] the time written. *)
Definition revive (m : Message) : Message :=
  mkMessage (msg_id m) (role m) (content m)
    (match timestamp m with
     | NoDate => InvalidDate
     | InvalidDate => DateAt 0
     | DateAt ms => DateAt ms
     end).

(** The report object the chat components are given (through the
    navigation state, the [userData] prop or ['latest_result']), seen
    through the members they read; a member the object lacks or holds as
    [null] is [None]. *)
Record ReportData : Type := mkReportData {
  rd_task : option string;
  rd_features : option (gmap string JsValue);
  rd_prediction : option Upload.Prediction;
  rd_prediction_id : option string;
  rd_lifestyle : option (gmap string JsValue);
  rd_symptoms : option (gmap string JsValue)
}.

(** The three entries of [localStorage] the chat components read or write:
    ['latest_result'], ['dr_intelligence_chat_history_triage'] and
    ['dr_intelligence_chat_history_floating'], each as the value its JSON
    text parses to, [None] when the key is not set. *)
Record LocalStorage : Type := mkLocalStorage {
  ls_latest_result : option ReportData;
  ls_triage : option (list Message);
  ls_floating : option (list Message)
}.

End Chat.

(** ** web/src/pages/Triage.tsx *)

Module TriagePage.
Import Api Chat.

Record State : Type := mkState {
  latest : option ReportData;
  messages : list Message;
  loading : bool;
  error : option string;
  model : string
}.

(** What the [triage] call of api.ts returns. *)
Record TriageReply : Type := mkTriageReply {
  triage_summary : string;
  followups : list string;
  model_name : string
}.

(** [const riskLevel = label === 1 ? 'higher risk' : 'lower risk'] *)
Definition riskLevel (label : float) : string :=
  if PrimFloat.eqb label 1 then "higher risk" else "lower risk".

(** What [ask] keeps in its closure across the [await]: the [messages]
    array of the render the handler belongs to, the question, and the user
    message it appended. *)
Record AskClosure : Type := mkAskClosure {
  ask_messages : list Message;
  ask_q : string;
  ask_userMessage : Message
}.

Section Page.
(** [health_score?.toFixed(1)], [formatMedicalResponse] and
    [String.prototype.trim]: text functions the properties below do not
    depend on; [same_json a b] is
    [JSON.stringify(a) === JSON.stringify(b)]. *)
Variable toFixed1 : float → string.
Variable formatMedicalResponse : string → string.
Variable trim : string → string.
Variable same_json : ReportData → ReportData → bool.

(** The greeting of [checkForNewReport]. *)
Definition newReportGreeting (p : Upload.Prediction) : string :=
  "Hello! I'm Dr. Intelligence, your AI Health Assistant. I've reviewed your new results and see you have a health score of "
  +:+ toFixed1 (Upload.p_health_score p) +:+ "/100 with "
  +:+ riskLevel (Upload.p_label p)
  +:+ " indicators. I'm here to provide professional medical guidance. Please feel free to ask any questions about your health status, test results, or next steps.".

(** The greeting of the effect that runs once after the first render. *)
Definition personalizedGreeting (report : ReportData) : string :=
  "Hello! I'm Dr. Intelligence, your AI Health Assistant."
  +:+ match rd_prediction report with
      | Some p =>
          " I've reviewed your results and see you have a health score of "
          +:+ toFixed1 (Upload.p_health_score p) +:+ "/100 with "
          +:+ riskLevel (Upload.p_label p) +:+ " indicators."
      | None => ""
      end
  +:+ " I'm here to provide professional medical guidance. Please feel free to ask any questions about your health status, test results, or next steps.".

(** The effect on [location.state]: report data that came with the
    navigation becomes [latest] and is written under ['latest_result'];
    without it the stored report, if any, becomes [latest]. *)
Definition onLocation (navigationData : option ReportData)
    (st : State) (ls : LocalStorage) : State * LocalStorage :=
  match navigationData with
  | Some d =>
      (mkState (Some d) (messages st) (loading st) (error st) (model st),
       mkLocalStorage (Some d) (ls_triage ls) (ls_floating ls))
  | None =>
      match ls_latest_result ls with
      | Some parsedReport =>
          (mkState (Some parsedReport) (messages st) (loading st) (error st)
             (model st), ls)
      | None => (st, ls)
      end
  end.

(** [checkForNewReport], with the [latest] of the effect it belongs to.  A
    stored report that differs from it restarts the conversation and
    removes the stored history (the opening question is asked half a second
    later by the [ask] of the same render); no stored report empties the
    page. *)
Definition checkForNewReport (latest_seen : option ReportData)
    (st : State) (ls : LocalStorage) : State * LocalStorage :=
  match ls_latest_result ls with
  | Some parsedReport =>
      if match latest_seen with
         | None => true
         | Some l => negb (same_json parsedReport l)
         end
      then
        (mkState (Some parsedReport)
           (match rd_prediction parsedReport with
            | Some p => [mkMessage None ai (newReportGreeting p) NoDate]
            | None => []
            end)
           (loading st) (error st) (model st),
         mkLocalStorage (ls_latest_result ls) None (ls_floating ls))
      else (st, ls)
  | None => (mkState None [] (loading st) (error st) (model st), ls)
  end.

(** [ask(q)] up to the [await], with the [latest] and [messages] of the
    render the handler belongs to: nothing without a report or for a blank
    question; else the user message, stamped [now], is appended and the
    request goes out. *)
Definition ask_click (latest_seen : option ReportData)
    (messages_seen : list Message) (q : string) (now : Z) (st : State)
  : State * option AskClosure :=
  match latest_seen with
  | None => (st, None)
  | Some _ =>
      if bool_decide (trim q = "") then (st, None)
      else
        let userMessage := mkMessage None user q (DateAt now) in
        (mkState (latest st) (messages st ++ [userMessage]) true None (model st),
         Some (mkAskClosure messages_seen q userMessage))
  end.

(** [ask] from the answer of [triage] on, over the state and the storage
    of that moment.  [inl r] is the reply, [inr detail] the text of the
    error caught; [later] and [later'] are the clock readings of the
    [new Date()]s, in the order they are taken.  After a reply the handler
    still awaits [sessionSubmit] before its [finally]; after an error the
    [finally] follows at once. *)
Definition ask_answer (c : AskClosure) (later later' : Z)
    (r : TriageReply + string) (st : State) (ls : LocalStorage)
  : State * LocalStorage :=
  match r with
  | inl r =>
      let formattedResponse := formatMedicalResponse (triage_summary r) in
      let assistantMessage := mkMessage None ai formattedResponse (DateAt later) in
      let sharedMessages := ask_messages c ++ [ask_userMessage c; assistantMessage] in
      (mkState (latest st) (messages st ++ [assistantMessage]) (loading st)
         (error st) (model_name r),
       mkLocalStorage (ls_latest_result ls) (Some (slice_last 10 sharedMessages))
         (ls_floating ls))
  | inr detail =>
      let errorMessage := formatMedicalResponse detail in
      let errorMsg := mkMessage None ai errorMessage (DateAt later) in
      let sharedMessages :=
        ask_messages c ++ [mkMessage None user (ask_q c) (DateAt later'); errorMsg] in
      (mkState (latest st) (messages st ++ [errorMsg]) false (error st) (model st),
       mkLocalStorage (ls_latest_result ls) (Some (slice_last 10 sharedMessages))
         (ls_floating ls))
  end.

(** The [finally] of [ask] after a reply, once [sessionSubmit] has ended
    one way or the other. *)
Definition ask_done (st : State) : State :=
  mkState (latest st) (messages st) false (error st) (model st).

(** The effect that runs once after the first render, with the [latest]
    and [messages] of that render: nothing without a report or with
    messages; else the stored history, when it is not empty, with its
    timestamps revived; else the greeting (followed by a separate [ask]). *)
Definition initialLoad (latest_seen : option ReportData)
    (messages_seen : list Message) (st : State) (ls : LocalStorage) : State :=
  match latest_seen, messages_seen with
  | Some report, [] =>
      match ls_triage ls with
      | Some (m :: history) =>
          mkState (latest st) (revive <$> m :: history) (loading st) (error st)
            (model st)
      | _ =>
          mkState (latest st)
            [mkMessage None ai (personalizedGreeting report) NoDate]
            (loading st) (error st) (model st)
      end
  | _, _ => st
  end.

(** [handleStorageChange]: a storage event for the triage key whose new
    value parses to [newValue]. *)
Definition handleStorageChange (newValue : list Message) (st : State) : State :=
  match newValue with
  | _ :: _ =>
      mkState (latest st) (revive <$> newValue) (loading st) (error st) (model st)
  | [] => st
  end.
End Page.

End TriagePage.

(** ** web/src/pages/History.tsx *)

Module HistoryPage.

Inductive Icon : Type := AlertCircle | TrendingUp.

Record RiskBadge : Type := mkRiskBadge {
  text : string;
  color : string;
  icon : Icon
}.

(** [getRiskLevel(label, probability)]: declared in the history page and
    called nowhere. *)
Definition getRiskLevel (label probability : float) : RiskBadge :=
  if PrimFloat.eqb label 1 then
    mkRiskBadge "Higher Risk" "text-red-600 bg-red-50" AlertCircle
  else
    mkRiskBadge "Lower Risk" "text-green-600 bg-green-50" TrendingUp.

(** [interface HealthData], with the [prediction_id] the handlers read. *)
Record HealthData : Type := mkHealthData {
  hd_task : string;
  hd_features : gmap string JsValue;
  hd_prediction : option Upload.Prediction;
  hd_prediction_id : option string;
  hd_lifestyle : gmap string JsValue;
  hd_symptoms : gmap string JsValue
}.

(** What a click on "Analyze" does: the request it sends, if any, what it
    writes under ['latest_result'], if anything, and the [reportData] it
    navigates to the triage page with. *)
Record AnalyzeOutcome : Type := mkAnalyzeOutcome {
  requested : option (string * gmap string JsValue * option string);
  stored : option HealthData;
  reportData : HealthData
}.

(** The [onClick] of the "Analyze" button of the latest assessment.
    [pred] is the outcome of [predictWithFeatures] when it is called. *)
Definition onAnalyzeLatest (latest : HealthData)
    (pred : Api.PredictResponse + string) : AnalyzeOutcome :=
  let features := hd_features latest in
  let task := if bool_decide (hd_task latest = "") then "general" else hd_task latest in
  if negb (bool_decide (task = "general")) && bool_decide (is_Some (hd_prediction latest))
  then mkAnalyzeOutcome None None latest
  else if negb (bool_decide (task = "general")) then
    let request := Some (task, features, hd_prediction_id latest) in
    match pred with
    | inl r =>
        let updatedLatest :=
          mkHealthData (hd_task latest) (hd_features latest)
            (Some (Upload.mkPrediction (Api.label r) (Api.probability r)
                     (Api.health_score r)))
            (Some (Api.prediction_id r))
            (hd_lifestyle latest) (hd_symptoms latest) in
        mkAnalyzeOutcome request (Some updatedLatest) updatedLatest
    | inr _ => mkAnalyzeOutcome request None latest
    end
  else mkAnalyzeOutcome None None latest.

End HistoryPage.

(** ** web/src/components/ChatBot.tsx *)

Module ChatBot.
Import Chat.

Record State : Type := mkState {
  messages : list Message;
  input : string;
  isLoading : bool
}.

(** What [sendMessage] keeps in its closure across the [await]: the
    [messages] array of its render and the user message it appended. *)
Record SendClosure : Type := mkSendClosure {
  send_messages : list Message;
  send_userMessage : Message
}.

Section Bot.
Variable formatMedicalResponse : string → string.
Variable trim : string → string.
(** [Date.now().toString()] and [(Date.now() + 1).toString()]. *)
Variable id_of : Z → string.

(** [sendMessage()] up to the [await], with the [messages] of its render;
    [now_id] is the reading of [Date.now()], [now] that of [new Date()]. *)
Definition sendMessage_click (messages_seen : list Message) (now_id now : Z)
    (st : State) : State * option SendClosure :=
  if bool_decide (trim (input st) = "") || isLoading st then (st, None)
  else
    let userMessage :=
      mkMessage (Some (id_of now_id)) user (trim (input st)) (DateAt now) in
    (mkState (messages st ++ [userMessage]) "" true,
     Some (mkSendClosure messages_seen userMessage)).

(** [sendMessage()] from the answer on.  [response] is the
    [triage_summary] of a successful reply ([None] when the member is empty
    or absent), [inr] a failed fetch; only a reply is written to the
    storage. *)
Definition sendMessage_answer (c : SendClosure) (later_id later : Z)
    (response : option string + unit) (st : State) (ls : LocalStorage)
  : State * LocalStorage :=
  match response with
  | inl summary =>
      let formattedContent :=
        formatMedicalResponse
          (default "I apologize, but I couldn't generate a response. Please try again."
             summary) in
      let assistantMessage :=
        mkMessage (Some (id_of (later_id + 1))) assistant formattedContent
          (DateAt later) in
      let updatedMessages := send_messages c ++ [send_userMessage c; assistantMessage] in
      (mkState (messages st ++ [assistantMessage]) (input st) false,
       mkLocalStorage (ls_latest_result ls) (ls_triage ls)
         (Some (slice_last 10 updatedMessages)))
  | inr _ =>
      let errorMessage :=
        mkMessage (Some (id_of (later_id + 1))) assistant
          "I apologize, but I'm experiencing a temporary connection issue. Please try your question again in a moment, or contact support if the problem persists."
          (DateAt later) in
      (mkState (messages st ++ [errorMessage]) (input st) false, ls)
  end.

(** The effect that runs when [userData] describes a new report: the
    history key is removed and the messages are cleared (the greeting is
    set a moment later). *)
Definition newReport (st : State) (ls : LocalStorage) : State * LocalStorage :=
  (mkState [] (input st) (isLoading st),
   mkLocalStorage (ls_latest_result ls) (ls_triage ls) None).
End Bot.

Section Metrics.
(** Template interpolation [`${v}`] and the conversion behind [v > 0]. *)
Variable String_of : JsValue → string.
Variable Number : JsValue → float.

(** [if (features.k !== undefined) metrics.push(`label: ${features.k}unit`)] *)
Definition push_metric (features : gmap string JsValue) (k label unit : string)
    (metrics : list string) : list string :=
  match js_get features k with
  | JUndefined => metrics
  | v => metrics ++ [label +:+ ": " +:+ String_of v +:+ unit]
  end.

(** [getKeyMetrics(task, features)] *)
Definition getKeyMetrics (task : string) (features : gmap string JsValue)
  : list string :=
  let metrics : list string := [] in
  if bool_decide (task = "heart") then
    let metrics := push_metric features "chol" "cholesterol" " mg/dL" metrics in
    let metrics := push_metric features "trestbps" "blood pressure" " mmHg" metrics in
    let metrics := push_metric features "thalach" "max heart rate" " bpm" metrics in
    push_metric features "age" "age" " years" metrics
  else if bool_decide (task = "diabetes") then
    let metrics := push_metric features "Glucose" "glucose" " mg/dL" metrics in
    let metrics := push_metric features "BMI" "BMI" "" metrics in
    let metrics := push_metric features "BloodPressure" "blood pressure" " mmHg" metrics in
    let metrics := push_metric features "Age" "age" " years" metrics in
    match js_get features "Pregnancies" with
    | JUndefined => metrics
    | v =>
        if js_lt 0 (Number v)
        then metrics ++ ["pregnancies" +:+ ": " +:+ String_of v +:+ ""]
        else metrics
    end
  else if bool_decide (task = "parkinsons") then
    let metrics := push_metric features "jitter_percent" "voice jitter" "%" metrics in
    let metrics := push_metric features "shimmer" "voice shimmer" "" metrics in
    let metrics := push_metric features "rap" "amplitude perturbation" "" metrics in
    push_metric features "nhr" "noise-to-harmonics ratio" "" metrics
  else metrics.
End Metrics.

End ChatBot.

(** ** web/src/App.tsx and web/src/pages/Login.tsx: routing *)

Module App.

(** What Clerk's [useUser] and the build flag tell the router. *)
Record Auth : Type := mkAuth {
  DISABLE_AUTH : bool;
  isLoaded : bool;
  isSignedIn : bool
}.

(** Where the browser is: on the exact path ['/login'] (which [App] renders
    on its own), or on a path one of the [Route]s matches, or elsewhere. *)
Inductive Location : Type :=
| AtLogin
| RouteRoot
| RouteLogin
| RouteUpload
| RouteManual
| RouteTriage
| RouteHistory
| NoRoute.

Inductive Page : Type := UploadPage | ManualPage | TriagePage | HistoryPage.

(** What ends up on the screen: a redirect, the loading text, a protected
    page, Clerk's sign-in area ([<SignedOut><SignIn/></SignedOut>]), or
    nothing. *)
Inductive View : Type :=
| Navigate (to : Location)
| Loading
| Show (p : Page)
| SignInArea
| Blank.

(** [function RequireAuth({ children })] *)
Definition RequireAuth (a : Auth) (children : View) : View :=
  if DISABLE_AUTH a then children
  else if negb (isLoaded a) then Loading
  else if negb (isSignedIn a) then Navigate AtLogin
  else children.

(** [Login]: its effect navigates to ['/upload'] when authentication is
    disabled or the user is signed in; otherwise the sign-in area shows. *)
Definition Login (a : Auth) : View :=
  if DISABLE_AUTH a then Navigate RouteUpload
  else if isSignedIn a then Navigate RouteUpload
  else SignInArea.

(** [App]: the early return for ['/login'], then the route table. *)
Definition App (a : Auth) (l : Location) : View :=
  match l with
  | AtLogin => Login a
  | RouteRoot =>
      if DISABLE_AUTH a then Navigate RouteUpload
      else if isSignedIn a then Navigate RouteUpload else Navigate AtLogin
  | RouteLogin => Login a
  | RouteUpload => RequireAuth a (Show UploadPage)
  | RouteManual => RequireAuth a (Show ManualPage)
  | RouteTriage => RequireAuth a (Show TriagePage)
  | RouteHistory => RequireAuth a (Show HistoryPage)
  | NoRoute => Blank
  end.

(** Following one redirect: where the browser is after rendering at [l]. *)
Definition follow (a : Auth) (l : Location) : Location :=
  match App a l with
  | Navigate to => to
  | _ => l
  end.

End App.

(** ** web/src/pages/Manual.tsx *)

Module Manual.
Import Api.

(** What this page writes under ['latest_result']: task, features,
    prediction and prediction id, without lifestyle or symptoms. *)
Record StoredResult : Type := mkStoredResult {
  sr_task : Task;
  sr_features : gmap string JsValue;
  sr_prediction : Upload.Prediction;
  sr_prediction_id : string
}.

(** The [useState] cells; [latest_result] is what the page last wrote to
    the storage, if it wrote. *)
Record State : Type := mkState {
  task : Task;
  schema : gmap string string;
  features : gmap string JsValue;
  loading : bool;
  result : option PredictResponse;
  error : option string;
  latest_result : option StoredResult
}.

(** The [<option>]s of the task select. *)
Inductive TaskOption : Type := option_heart | option_diabetes | option_parkinsons.

Definition option_value (o : TaskOption) : Task :=
  match o with
  | option_heart => heart
  | option_diabetes => diabetes
  | option_parkinsons => parkinsons
  end.

(** The page as first rendered. *)
Definition initial : State := mkState heart ∅ ∅ false None None None.

(** [setTask(e.target.value as Task)] *)
Definition onSelectTask (st : State) (o : TaskOption) : State :=
  mkState (option_value o) (schema st) (features st) (loading st) (result st)
    (error st) (latest_result st).

(** The effect on [task]: when [getFeatureSchema] answers, the schema is
    replaced ([res.schema || {}]) and the features are emptied; a failure is
    ignored. *)
Definition onSchema (st : State) (res : option (option (gmap string string))) : State :=
  match res with
  | Some schema' =>
      mkState (task st) (default ∅ schema') ∅ (loading st) (result st)
        (error st) (latest_result st)
  | None => st
  end.

Definition onChangeFeature (st : State) (k : string) (v : JsValue) : State :=
  mkState (task st) (schema st) (<[k := v]> (features st)) (loading st)
    (result st) (error st) (latest_result st).

(** [onPredict]: the request is always sent, with no report id. *)
Definition onPredict (st : State) (pred : PredictResponse + string)
  : State * UploadReview.PredictRequest :=
  let request := UploadReview.mkPredictRequest (task st) (features st) None in
  match pred with
  | inl r =>
      (mkState (task st) (schema st) (features st) false (Some r) None
         (Some (mkStoredResult (task st) (features st)
                  (Upload.mkPrediction (label r) (probability r) (health_score r))
                  (prediction_id r))),
       request)
  | inr msg =>
      (mkState (task st) (schema st) (features st) false (result st) (Some msg)
         (latest_result st),
       request)
  end.

Inductive Event : Type :=
| SelectTask (o : TaskOption)
| SchemaAnswer (res : option (option (gmap string string)))
| ChangeFeature (k : string) (v : JsValue)
| ClickPredict (pred : PredictResponse + string).

Definition step (st : State) (e : Event) : State :=
  match e with
  | SelectTask o => onSelectTask st o
  | SchemaAnswer res => onSchema st res
  | ChangeFeature k v => onChangeFeature st k v
  | ClickPredict pred => (onPredict st pred).1
  end.

Definition run (st : State) (events : list Event) : State := foldl step st events.

End Manual.

(** ** The two chat components over one localStorage *)

Module Session.
Import Chat.

Section Run.
Variable toFixed1 : float → string.
Variable formatMedicalResponse : string → string.
Variable trim : string → string.
Variable id_of : Z → string.
Variable same_json : ReportData → ReportData → bool.

(** The triage page, the floating chatbot, the localStorage they share and
    the requests in flight: the questions of the page that await their
    answer ([asks]), how many of its [sessionSubmit] calls are still out
    ([notes]), and the message of the chatbot that awaits its answer. *)
Record World : Type := mkWorld {
  page : TriagePage.State;
  bot : ChatBot.State;
  storage : LocalStorage;
  asks : list TriagePage.AskClosure;
  notes : nat;
  sending : option ChatBot.SendClosure
}.

(** What can happen.  On the triage page: the navigation effect, a check for
    a new report, a question (from the input or from a timer, with the
    [latest] and [messages] of the render its closure belongs to), the
    answer to the [n]-th question in flight, the end of a [sessionSubmit],
    the effect of the first render, a storage event.  In the chatbot:
    typing, sending, the answer, a new report. *)
Inductive Event : Type :=
| PageLocation (navigationData : option ReportData)
| PageCheckForNewReport (latest_seen : option ReportData)
| PageAsk (latest_seen : option ReportData) (messages_seen : list Message)
    (q : string) (now : Z)
| PageAnswer (n : nat) (later later' : Z) (r : TriagePage.TriageReply + string)
| PageNoteDone
| PageInitialLoad (latest_seen : option ReportData) (messages_seen : list Message)
| PageStorageChange
| BotInput (s : string)
| BotSend (messages_seen : list Message) (now_id now : Z)
| BotAnswer (later_id later : Z) (response : option string + unit)
| BotNewReport.

Definition step (w : World) (e : Event) : World :=
  match e with
  | PageLocation navigationData =>
      let '(p, ls) := TriagePage.onLocation navigationData (page w) (storage w) in
      mkWorld p (bot w) ls (asks w) (notes w) (sending w)
  | PageCheckForNewReport latest_seen =>
      let '(p, ls) :=
        TriagePage.checkForNewReport toFixed1 same_json latest_seen (page w)
          (storage w) in
      mkWorld p (bot w) ls (asks w) (notes w) (sending w)
  | PageAsk latest_seen messages_seen q now =>
      match TriagePage.ask_click trim latest_seen messages_seen q now (page w) with
      | (p, Some c) => mkWorld p (bot w) (storage w) (asks w ++ [c]) (notes w) (sending w)
      | (p, None) => mkWorld p (bot w) (storage w) (asks w) (notes w) (sending w)
      end
  | PageAnswer n later later' r =>
      match asks w !! n with
      | Some c =>
          let '(p, ls) :=
            TriagePage.ask_answer formatMedicalResponse c later later' r
              (page w) (storage w) in
          mkWorld p (bot w) ls (delete n (asks w))
            (match r with inl _ => S (notes w) | inr _ => notes w end)
            (sending w)
      | None => w
      end
  | PageNoteDone =>
      match notes w with
      | S k =>
          mkWorld (TriagePage.ask_done (page w)) (bot w) (storage w) (asks w) k
            (sending w)
      | O => w
      end
  | PageInitialLoad latest_seen messages_seen =>
      mkWorld
        (TriagePage.initialLoad toFixed1 latest_seen messages_seen (page w)
           (storage w))
        (bot w) (storage w) (asks w) (notes w) (sending w)
  | PageStorageChange =>
      mkWorld
        (TriagePage.handleStorageChange (default [] (ls_triage (storage w)))
           (page w))
        (bot w) (storage w) (asks w) (notes w) (sending w)
  | BotInput s =>
      mkWorld (page w)
        (ChatBot.mkState (ChatBot.messages (bot w)) s (ChatBot.isLoading (bot w)))
        (storage w) (asks w) (notes w) (sending w)
  | BotSend messages_seen now_id now =>
      match ChatBot.sendMessage_click trim id_of messages_seen now_id now (bot w) with
      | (b, Some c) => mkWorld (page w) b (storage w) (asks w) (notes w) (Some c)
      | (b, None) => mkWorld (page w) b (storage w) (asks w) (notes w) (sending w)
      end
  | BotAnswer later_id later response =>
      match sending w with
      | Some c =>
          let '(b, ls) :=
            ChatBot.sendMessage_answer formatMedicalResponse id_of c later_id later
              response (bot w) (storage w) in
          mkWorld (page w) b ls (asks w) (notes w) None
      | None => w
      end
  | BotNewReport =>
      let '(b, ls) := ChatBot.newReport (bot w) (storage w) in
      mkWorld (page w) b ls (asks w) (notes w) (sending w)
  end.

Definition run (w : World) (events : list Event) : World := foldl step w events.
End Run.

End Session.

(** * Properties *)

(** ** Order facts on doubles *)

Module FloatOrder.

Lemma SFcompare_Lt_flip (x y : spec_float) :
  SFcompare x y = Some Lt → SFcompare y x = Some Gt.
Proof.
  destruct x as [sx|sx| |sx mx ex], y as [sy|sy| |sy my ey]; simpl;
    try discriminate; try (destruct sx; discriminate || reflexivity);
    try (destruct sy; discriminate || reflexivity).
  - destruct sx, sy; discriminate || reflexivity.
  - change (PosDef.Pos.compare_cont Eq my mx) with (my ?= mx)%positive.
    change (PosDef.Pos.compare_cont Eq mx my) with (mx ?= my)%positive.
    rewrite (Z.compare_antisym ex ey), (Pos.compare_antisym mx my).
    destruct sx, sy; try discriminate; try reflexivity;
      destruct (ex ?= ey)%Z; simpl; try discriminate; try reflexivity;
      destruct (mx ?= my)%positive; simpl; discriminate || reflexivity.
Qed.

(** [c < t] excludes [c >= t]. *)
Lemma lt_not_ge (c t : float) : js_lt c t = true → js_ge c t = false.
Proof.
  unfold js_lt, js_ge. rewrite ltb_spec, leb_spec. unfold SFltb, SFleb.
  destruct (SFcompare (Prim2SF c) (Prim2SF t)) as [[]|] eqn:E; try discriminate.
  intros _. by rewrite (SFcompare_Lt_flip _ _ E).
Qed.

(** The two thresholds as the kernel reads them: the same exponent, the
    mantissa of 0.9 below the mantissa of 0.95. *)
Lemma thresholds_spec :
  ∃ (e : Z) (m90 m95 : positive),
    Prim2SF 0.9 = S754_finite false m90 e ∧
    Prim2SF 0.95 = S754_finite false m95 e ∧
    (m90 < m95)%positive.
Proof.
  eexists _, _, _. split; [vm_compute; reflexivity|].
  split; [vm_compute; reflexivity|]. vm_compute. reflexivity.
Qed.

(** [c >= 0.95] implies [c >= 0.90]. *)
Lemma ge_high_ge_medium (c : float) :
  js_ge c 0.95 = true → js_ge c 0.9 = true.
Proof.
  unfold js_ge. rewrite !leb_spec.
  destruct thresholds_spec as (e & m90 & m95 & -> & -> & Hm).
  unfold SFleb. destruct (Prim2SF c) as [s|s| |s m ec]; simpl; try done.
  destruct s; [done|].
  change (PosDef.Pos.compare_cont Eq m95 m) with (m95 ?= m)%positive.
  change (PosDef.Pos.compare_cont Eq m90 m) with (m90 ?= m)%positive.
  destruct (e ?= ec)%Z; try done.
  destruct (Pos.compare_spec m95 m) as [->|H|H]; intros ?; try done.
  - by rewrite (proj2 (Pos.compare_lt_iff m90 m) Hm).
  - by rewrite (proj2 (Pos.compare_lt_iff m90 m) (Pos.lt_trans _ _ _ Hm H)).
Qed.

(** [c < 0.90] excludes [c >= 0.95]. *)
Lemma lt_medium_not_ge_high (c : float) :
  js_lt c 0.9 = true → js_ge c 0.95 = false.
Proof.
  intros H%lt_not_ge. destruct (js_ge c 0.95) eqn:E; [|done].
  apply ge_high_ge_medium in E. congruence.
Qed.

End FloatOrder.

(** ** Lists built by pushing inside a loop *)

Module PushLoop.

(** A loop whose body either pushes the current key or leaves the array
    alone builds the filtered list. *)
Lemma foldl_push (p : string → bool) (f : list string → string → list string)
    (acc l : list string) :
  (∀ a k, f a k = if p k then a ++ [k] else a) →
  foldl f acc l = acc ++ filter (λ k, p k = true) l.
Proof.
  intros Hf. revert acc. induction l as [|k l IH]; intros acc; simpl.
  - by rewrite app_nil_r.
  - rewrite IH, Hf, filter_cons.
    destruct (p k); case_decide; try done. by rewrite <- app_assoc.
Qed.

Lemma elem_of_Object_keys {V : Type} (o : gmap string V) (k : string) :
  k ∈ Object_keys o ↔ is_Some (o !! k).
Proof.
  unfold Object_keys. rewrite list_elem_of_fmap. split.
  - intros ([k' v] & -> & H%elem_of_map_to_list). by exists v.
  - intros [v H]. exists (k, v). split; [done|]. by apply elem_of_map_to_list.
Qed.

Lemma NoDup_Object_keys {V : Type} (o : gmap string V) : NoDup (Object_keys o).
Proof. apply NoDup_fst_map_to_list. Qed.

Lemma elem_of_set_from (seen l : list string) (k : string) :
  k ∈ set_from seen l ↔ k ∈ l ∧ k ∉ seen.
Proof.
  revert seen. induction l as [|x l IH]; intros seen; simpl.
  - rewrite elem_of_nil. tauto.
  - case_bool_decide as Hx.
    + rewrite IH, elem_of_cons. split; [tauto|].
      intros [[-> | ?] ?]; tauto.
    + rewrite !elem_of_cons, IH, not_elem_of_cons.
      destruct (decide (k = x)) as [-> | ?]; tauto.
Qed.

Lemma NoDup_set_from (seen l : list string) : NoDup (set_from seen l).
Proof.
  revert seen. induction l as [|x l IH]; intros seen; simpl.
  - constructor.
  - case_bool_decide; [apply IH|]. constructor; [|apply IH].
    rewrite elem_of_set_from, not_elem_of_cons. tauto.
Qed.

Lemma elem_of_Array_from_Set (l : list string) (k : string) :
  k ∈ Array_from_Set l ↔ k ∈ l.
Proof.
  unfold Array_from_Set. rewrite elem_of_set_from.
  pose proof (not_elem_of_nil k). tauto.
Qed.

Lemma NoDup_Array_from_Set (l : list string) : NoDup (Array_from_Set l).
Proof. apply NoDup_set_from. Qed.

End PushLoop.

(** ** Confidence grouping of the upload page *)

Module UploadGroups.
Import Api Upload PushLoop.

Inductive Bucket : Type := BHigh | BMedium | BLow.

#[export] Instance Bucket_eq_dec : EqDecision Bucket.
Proof. solve_decision. Defined.

(** The decision [groups_visit] takes for one key: the array it pushes to,
    if any. *)
Definition bucket_of (extractedMeta : gmap string Meta) (missing : list string)
    (k : string) : option Bucket :=
  if bool_decide (k ∈ missing) then None
  else if bool_decide (k = "age") || bool_decide (k = "Age") then None
  else
    match confidence_at extractedMeta k with
    | JNum c =>
        if js_ge c 0.95 then Some BHigh
        else if js_ge c 0.90 then Some BMedium
        else Some BLow
    | _ => None
    end.

Definition push_to (b : option Bucket) (g : Groups) (k : string) : Groups :=
  match b with
  | Some BHigh => mkGroups (high g ++ [k]) (medium g) (low g)
  | Some BMedium => mkGroups (high g) (medium g ++ [k]) (low g)
  | Some BLow => mkGroups (high g) (medium g) (low g ++ [k])
  | None => g
  end.

Lemma groups_visit_bucket em missing g k :
  groups_visit em missing g k = push_to (bucket_of em missing k) g k.
Proof.
  unfold groups_visit, bucket_of.
  repeat (case_bool_decide; simpl; try done);
    destruct (confidence_at em k); try done;
    destruct (js_ge _ 0.95); try done; by destruct (js_ge _ 0.9).
Qed.

Definition in_bucket em missing (b : Bucket) (k : string) : Prop :=
  bucket_of em missing k = Some b.

#[export] Instance in_bucket_dec em missing b k : Decision (in_bucket em missing b k).
Proof. unfold in_bucket. apply _. Defined.

Lemma groups_foldl em missing (g : Groups) (l : list string) :
  foldl (groups_visit em missing) g l =
  mkGroups (high g ++ filter (in_bucket em missing BHigh) l)
           (medium g ++ filter (in_bucket em missing BMedium) l)
           (low g ++ filter (in_bucket em missing BLow) l).
Proof.
  revert g. induction l as [|k l IH]; intros g; simpl.
  - rewrite !filter_nil, !app_nil_r. by destruct g.
  - rewrite IH, groups_visit_bucket, !filter_cons.
    repeat case_decide; unfold in_bucket in *;
      destruct (bucket_of em missing k) as [[]|]; simpl;
      try congruence; by rewrite <- ?app_assoc.
Qed.

Lemma groups_filter em missing :
  groups em missing =
  mkGroups (filter (in_bucket em missing BHigh) (Object_keys em))
           (filter (in_bucket em missing BMedium) (Object_keys em))
           (filter (in_bucket em missing BLow) (Object_keys em)).
Proof. unfold groups. by rewrite groups_foldl. Qed.

Definition group (b : Bucket) (g : Groups) : list string :=
  match b with BHigh => high g | BMedium => medium g | BLow => low g end.

(** A key is in a group exactly when it is a key of [extractedMeta] and the
    callback decides for that group. *)
Lemma elem_of_group em missing b k :
  k ∈ group b (groups em missing) ↔
  is_Some (em !! k) ∧ bucket_of em missing k = Some b.
Proof.
  rewrite groups_filter.
  destruct b; simpl; rewrite list_elem_of_filter, elem_of_Object_keys;
    unfold in_bucket; tauto.
Qed.

Lemma NoDup_group em missing b : NoDup (group b (groups em missing)).
Proof.
  rewrite groups_filter.
  destruct b; simpl; apply NoDup_filter, NoDup_Object_keys.
Qed.

(** What [bucket_of] answers for a key with a numeric confidence that is
    neither missing nor hidden. *)
Lemma bucket_of_number em missing k m c :
  em !! k = Some m → m_confidence m = JNum c →
  k ∉ missing → k ≠ "age" → k ≠ "Age" →
  bucket_of em missing k =
    Some (if js_ge c 0.95 then BHigh else if js_ge c 0.9 then BMedium else BLow).
Proof.
  intros Hk Hc Hm Ha HA. unfold bucket_of, confidence_at.
  rewrite Hk, Hc, bool_decide_eq_false_2 by done.
  rewrite (bool_decide_eq_false_2 (k = "age")) by done.
  rewrite (bool_decide_eq_false_2 (k = "Age")) by done. simpl.
  destruct (js_ge c 0.95); [done|]. by destruct (js_ge c 0.9).
Qed.

Lemma bucket_of_hidden em missing k :
  k = "age" ∨ k = "Age" → bucket_of em missing k = None.
Proof.
  intros [-> | ->]; unfold bucket_of; by case_bool_decide.
Qed.

Lemma bucket_of_missing em missing k :
  k ∈ missing → bucket_of em missing k = None.
Proof. intros H. unfold bucket_of. by rewrite bool_decide_eq_true_2. Qed.

Definition hidden (k : string) : Prop := k = "age" ∨ k = "Age" ∨ k = "sex".

Lemma not_hidden (k : string) :
  k ≠ "age" ∧ k ≠ "Age" ∧ k ≠ "sex" ↔ ¬ hidden k.
Proof. unfold hidden. tauto. Qed.

(** Membership in the two lists the page renders. *)
Lemma elem_of_optionalConfirmationKeys (g : Groups) (k : string) :
  k ∈ optionalConfirmationKeys g ↔ (k ∈ high g ∨ k ∈ medium g) ∧ ¬ hidden k.
Proof.
  unfold optionalConfirmationKeys. simpl.
  rewrite list_elem_of_filter, elem_of_app, not_hidden. tauto.
Qed.

Lemma elem_of_requiredKeys (missing : list string) (g : Groups) (k : string) :
  k ∈ requiredKeys missing g ↔ (k ∈ missing ∨ k ∈ low g) ∧ ¬ hidden k.
Proof.
  unfold requiredKeys. simpl.
  rewrite list_elem_of_filter, elem_of_Array_from_Set, elem_of_app, not_hidden.
  tauto.
Qed.

Lemma NoDup_requiredKeys (missing : list string) (g : Groups) :
  NoDup (requiredKeys missing g).
Proof. apply NoDup_filter, NoDup_Array_from_Set. Qed.

(** A key sits in at most one group, and never in a group when it is
    listed as missing. *)
Lemma group_unique em missing b1 b2 k :
  k ∈ group b1 (groups em missing) → k ∈ group b2 (groups em missing) → b1 = b2.
Proof. rewrite !elem_of_group. intros [_ H1] [_ H2]. congruence. Qed.

Lemma group_not_missing em missing b k :
  k ∈ group b (groups em missing) → k ∉ missing.
Proof.
  rewrite elem_of_group. intros [_ H] Hm.
  by rewrite (bucket_of_missing em missing k Hm) in H.
Qed.

Lemma group_not_age em missing b k :
  k ∈ group b (groups em missing) → k ≠ "age" ∧ k ≠ "Age".
Proof.
  rewrite elem_of_group. intros [_ H].
  split; intros ->; by rewrite bucket_of_hidden in H by tauto.
Qed.

End UploadGroups.

(** ** Thresholds of the confidence triage (C1, C2, C3) *)

Module UploadTriage.
Import Api Upload PushLoop UploadGroups FloatOrder.

(** An extraction that resolved only the patient's age, with confidence
    0.99. *)
Definition age_only : gmap string Meta :=
  {[ "age" := mkMeta (JNum 45) (JStr "years") (JNum 0.99) (JStr "ocr") ]}.

(** An extraction that resolved cholesterol with confidence 0.97. *)
Definition chol_high : gmap string Meta :=
  {[ "chol" := mkMeta (JNum 260) (JStr "mg/dL") (JNum 0.97) (JStr "ocr") ]}.

(** An extraction that resolved cholesterol with confidence 0.5. *)
Definition chol_low : gmap string Meta :=
  {[ "chol" := mkMeta (JNum 260) (JStr "mg/dL") (JNum 0.5) (JStr "ocr") ]}.

(** An extraction that resolved the resting blood pressure with
    confidence 0.93. *)
Definition trestbps_medium : gmap string Meta :=
  {[ "trestbps" := mkMeta (JNum 130) (JStr "mmHg") (JNum 0.93) (JStr "ocr") ]}.

(** C1 as the specification words it: every field that is not missing and
    has a numeric confidence is grouped by the two thresholds. *)
Definition thresholds_for_every_field : Prop :=
  ∀ (em : gmap string Meta) (missing : list string) (k : string)
    (m : Meta) (c : float),
    em !! k = Some m → m_confidence m = JNum c → k ∉ missing →
    (js_ge c 0.95 = true → k ∈ high (groups em missing)) ∧
    (js_ge c 0.9 = true → js_lt c 0.95 = true → k ∈ medium (groups em missing)).

Example groups_age_only : groups age_only [] = mkGroups [] [] [].
Proof. vm_compute. reflexivity. Qed.

Example groups_chol_high : groups chol_high [] = mkGroups ["chol"] [] [].
Proof. vm_compute. reflexivity. Qed.

Example groups_trestbps_medium :
  groups trestbps_medium [] = mkGroups [] ["trestbps"] [].
Proof. vm_compute. reflexivity. Qed.

Example groups_chol_low : groups chol_low [] = mkGroups [] [] ["chol"].
Proof. vm_compute. reflexivity. Qed.

(** C1, counterexample: the key ['age'] with confidence 0.99 is not
    missing, yet the callback returns before grouping it. *)
Lemma thresholds_fail_on_age : ¬ thresholds_for_every_field.
Proof.
  intros H.
  destruct (H age_only [] "age" _ 0.99%float eq_refl eq_refl) as [Hhigh _].
  { apply not_elem_of_nil. }
  specialize (Hhigh eq_refl). rewrite groups_age_only in Hhigh. simpl in Hhigh.
  by apply elem_of_nil in Hhigh.
Qed.

(** C1, amended: every extracted field other than ['age'] and ['Age'] that
    is not listed as missing and whose confidence is a number is put in the
    high group when its confidence is at least 0.95 and in the medium group
    when its confidence is at least 0.90 and below 0.95. *)
Theorem thresholds_for_shown_fields (em : gmap string Meta)
    (missing : list string) (k : string) (m : Meta) (c : float) :
  em !! k = Some m → m_confidence m = JNum c → k ∉ missing →
  k ≠ "age" → k ≠ "Age" →
  (js_ge c 0.95 = true → k ∈ high (groups em missing)) ∧
  (js_ge c 0.9 = true → js_lt c 0.95 = true → k ∈ medium (groups em missing)).
Proof.
  intros Hk Hc Hm Ha HA.
  pose proof (bucket_of_number em missing k m c Hk Hc Hm Ha HA) as Hb.
  split.
  - intros Hge. apply (elem_of_group em missing BHigh). split; [by eexists|].
    by rewrite Hb, Hge.
  - intros Hge Hlt%lt_not_ge. apply (elem_of_group em missing BMedium).
    split; [by eexists|]. by rewrite Hb, Hlt, Hge.
Qed.

(** The amended C1 at a blood pressure extracted with confidence 0.93. *)
Lemma thresholds_for_shown_fields_witness :
  (js_ge 0.93 0.95 = true → "trestbps" ∈ high (groups trestbps_medium [])) ∧
  (js_ge 0.93 0.9 = true → js_lt 0.93 0.95 = true →
   "trestbps" ∈ medium (groups trestbps_medium [])).
Proof.
  apply (thresholds_for_shown_fields trestbps_medium [] "trestbps"
           (mkMeta (JNum 130) (JStr "mmHg") (JNum 0.93) (JStr "ocr")) 0.93%float).
  - vm_compute. reflexivity.
  - reflexivity.
  - apply not_elem_of_nil.
  - discriminate.
  - discriminate.
Defined.

(** C2 as the specification words it: a field with confidence at least
    0.95 is auto-accepted and never in the list of fields shown to the user
    for confirmation. *)
Definition high_confidence_never_reviewed : Prop :=
  ∀ (em : gmap string Meta) (missing : list string) (k : string)
    (m : Meta) (c : float),
    em !! k = Some m → m_confidence m = JNum c → js_ge c 0.95 = true →
    k ∉ optionalConfirmationKeys (groups em missing).

Example optionalConfirmationKeys_chol_high :
  optionalConfirmationKeys (groups chol_high []) = ["chol"].
Proof. vm_compute. reflexivity. Qed.

(** C2, counterexample: cholesterol extracted with confidence 0.97 is in
    the list rendered under "Optional Confirmation Needed". *)
Lemma high_confidence_is_reviewed : ¬ high_confidence_never_reviewed.
Proof.
  intros H.
  apply (H chol_high [] "chol" _ 0.97%float eq_refl eq_refl eq_refl).
  rewrite optionalConfirmationKeys_chol_high. apply list_elem_of_singleton.
  reflexivity.
Qed.

(** C2, amended: a field with confidence at least 0.95 that is not missing
    and not named ['age'] or ['Age'] is put in the high group and in no
    other group, and never in the required-input list; the
    optional-confirmation list shown to the user is built from the high and
    the medium group together, so it contains the field unless the field is
    named ['sex']. *)
Theorem high_confidence_placement (em : gmap string Meta)
    (missing : list string) (k : string) (m : Meta) (c : float) :
  em !! k = Some m → m_confidence m = JNum c → k ∉ missing →
  k ≠ "age" → k ≠ "Age" → js_ge c 0.95 = true →
  let g := groups em missing in
  k ∈ high g ∧ (k ∉ medium g) ∧ (k ∉ low g) ∧
  (k ∉ requiredKeys missing g) ∧
  (k ∈ optionalConfirmationKeys g ↔ k ≠ "sex").
Proof.
  intros Hk Hc Hm Ha HA Hge g.
  assert (Hhigh : k ∈ group BHigh g).
  { apply elem_of_group. split; [by eexists|].
    by rewrite (bucket_of_number em missing k m c), Hge. }
  assert (Hmed : k ∉ medium g).
  { intros H. by pose proof (group_unique em missing BHigh BMedium k Hhigh H). }
  assert (Hlow : k ∉ low g).
  { intros H. by pose proof (group_unique em missing BHigh BLow k Hhigh H). }
  repeat split; try done.
  - rewrite elem_of_requiredKeys. tauto.
  - rewrite elem_of_optionalConfirmationKeys. unfold hidden. tauto.
  - intros Hs. apply elem_of_optionalConfirmationKeys. unfold hidden.
    split; [by left | tauto].
Qed.

(** The amended C2 at a cholesterol extracted with confidence 0.97. *)
Lemma high_confidence_placement_witness :
  let g := groups chol_high [] in
  "chol" ∈ high g ∧ ("chol" ∉ medium g) ∧ ("chol" ∉ low g) ∧
  ("chol" ∉ requiredKeys [] g) ∧
  ("chol" ∈ optionalConfirmationKeys g ↔ "chol" ≠ "sex").
Proof.
  apply (high_confidence_placement chol_high [] "chol"
           (mkMeta (JNum 260) (JStr "mg/dL") (JNum 0.97) (JStr "ocr")) 0.97%float).
  - vm_compute. reflexivity.
  - reflexivity.
  - apply not_elem_of_nil.
  - discriminate.
  - discriminate.
  - vm_compute. reflexivity.
Defined.

(** C3 as the specification words it: below 0.90 the schema's required
    flag decides between the required-input list and being dropped. *)
Definition low_confidence_by_required_flag : Prop :=
  ∀ (required : string → bool) (em : gmap string Meta) (missing : list string)
    (k : string) (m : Meta) (c : float),
    em !! k = Some m → m_confidence m = JNum c → k ∉ missing →
    js_lt c 0.9 = true →
    let g := groups em missing in
    (required k = true → k ∈ requiredKeys missing g) ∧
    (required k = false →
     (k ∉ requiredKeys missing g) ∧ k ∉ optionalConfirmationKeys g).

Example requiredKeys_chol_low : requiredKeys [] (groups chol_low []) = ["chol"].
Proof. vm_compute. reflexivity. Qed.

(** C3, counterexample: with a schema that marks no field required,
    cholesterol extracted with confidence 0.5 is still asked for as a
    required input. *)
Lemma low_confidence_optional_not_dropped : ¬ low_confidence_by_required_flag.
Proof.
  intros H.
  destruct (H (λ _, false) chol_low [] "chol" _ 0.5%float eq_refl eq_refl)
    as [_ Hdrop]; [apply not_elem_of_nil | reflexivity |].
  destruct (Hdrop eq_refl) as [Hreq _]. apply Hreq.
  rewrite requiredKeys_chol_low. by apply list_elem_of_singleton.
Qed.

(** C3, amended: a field with confidence below 0.90 that is not missing and
    not named ['age'], ['Age'] or ['sex'] is put in the low group and, with
    every missing field that is not so named, in the required-input list;
    it is in no other group and not in the optional-confirmation list.  No
    required flag of a schema is consulted. *)
Theorem low_confidence_is_required_input (em : gmap string Meta)
    (missing : list string) (k : string) (m : Meta) (c : float) :
  em !! k = Some m → m_confidence m = JNum c → k ∉ missing →
  k ≠ "age" → k ≠ "Age" → k ≠ "sex" → js_lt c 0.9 = true →
  let g := groups em missing in
  k ∈ low g ∧ (k ∉ high g) ∧ (k ∉ medium g) ∧
  k ∈ requiredKeys missing g ∧ (k ∉ optionalConfirmationKeys g) ∧
  (∀ k', k' ∈ missing → ¬ hidden k' → k' ∈ requiredKeys missing g).
Proof.
  intros Hk Hc Hm Ha HA Hs Hlt g.
  assert (Hlow : k ∈ group BLow g).
  { apply elem_of_group. split; [by eexists|].
    by rewrite (bucket_of_number em missing k m c),
      (lt_medium_not_ge_high c Hlt), (lt_not_ge c _ Hlt). }
  assert (Hhigh : k ∉ high g).
  { intros H. by pose proof (group_unique em missing BLow BHigh k Hlow H). }
  assert (Hmed : k ∉ medium g).
  { intros H. by pose proof (group_unique em missing BLow BMedium k Hlow H). }
  repeat split; try done.
  - apply elem_of_requiredKeys. unfold hidden. split; [by right | tauto].
  - rewrite elem_of_optionalConfirmationKeys. tauto.
  - intros k' Hk' Hh. apply elem_of_requiredKeys. tauto.
Qed.

(** The amended C3 at a cholesterol extracted with confidence 0.5, next to a
    missing maximum heart rate. *)
Lemma low_confidence_is_required_input_witness :
  let g := groups chol_low ["thalach"] in
  "chol" ∈ low g ∧ ("chol" ∉ high g) ∧ ("chol" ∉ medium g) ∧
  "chol" ∈ requiredKeys ["thalach"] g ∧ ("chol" ∉ optionalConfirmationKeys g) ∧
  (∀ k', k' ∈ ["thalach"] → ¬ hidden k' → k' ∈ requiredKeys ["thalach"] g).
Proof.
  apply (low_confidence_is_required_input chol_low ["thalach"] "chol"
           (mkMeta (JNum 260) (JStr "mg/dL") (JNum 0.5) (JStr "ocr")) 0.5%float).
  - vm_compute. reflexivity.
  - reflexivity.
  - intros H%list_elem_of_singleton. discriminate.
  - discriminate.
  - discriminate.
  - discriminate.
  - vm_compute. reflexivity.
Defined.

End UploadTriage.

(** ** The groups as a partition (C4) *)

Module UploadPartition.
Import Api Upload PushLoop UploadGroups UploadTriage.

(** What the server's answer is expected to satisfy with respect to the
    task's schema (field name to required flag): metadata only for schema
    fields, and [missing] lists exactly the required fields without an
    extracted value. *)
Definition ingest_consistent (schema : gmap string bool)
    (em : gmap string Meta) (missing : list string) : Prop :=
  (∀ k, is_Some (em !! k) → is_Some (schema !! k)) ∧
  (∀ k, k ∈ missing ↔ schema !! k = Some true ∧ em !! k = None).

(** C4 as the specification words it: no required schema field is left out
    of the buckets, and no field is in two of them. *)
Definition closed_partition : Prop :=
  ∀ (schema : gmap string bool) (em : gmap string Meta) (missing : list string),
    ingest_consistent schema em missing →
    let g := groups em missing in
    (∀ k, schema !! k = Some true →
          k ∈ high g ∨ k ∈ medium g ∨ k ∈ low g ∨ k ∈ missing) ∧
    (∀ k, ¬ (k ∈ high g ∧ k ∈ medium g) ∧
          ¬ (k ∈ high g ∧ (k ∈ low g ∨ k ∈ missing)) ∧
          ¬ (k ∈ medium g ∧ (k ∈ low g ∨ k ∈ missing))).

(** The schema of a task whose only field is the required ['age']. *)
Definition age_required : gmap string bool := {[ "age" := true ]}.

Lemma age_only_consistent : ingest_consistent age_required age_only [].
Proof.
  split.
  - intros k [m Hk]. unfold age_only in Hk.
    apply lookup_singleton_Some in Hk as [<- _]. by eexists.
  - intros k. split.
    + by intros ?%elem_of_nil.
    + intros [Hs He]. unfold age_required in Hs.
      apply lookup_singleton_Some in Hs as [<- _]. discriminate.
Qed.

(** C4, counterexample: a required ['age'] extracted with confidence 0.99
    is in no group and not in the missing list. *)
Lemma required_age_in_no_bucket : ¬ closed_partition.
Proof.
  intros H.
  destruct (H age_required age_only [] age_only_consistent) as [Hcover _].
  specialize (Hcover "age" eq_refl). rewrite groups_age_only in Hcover.
  simpl in Hcover.
  destruct Hcover as [?%elem_of_nil|[?%elem_of_nil|[?%elem_of_nil|?%elem_of_nil]]];
    done.
Qed.

Lemma NoDup_optionalConfirmationKeys em missing :
  NoDup (optionalConfirmationKeys (groups em missing)).
Proof.
  unfold optionalConfirmationKeys. simpl. apply NoDup_filter, NoDup_app.
  split; [apply (NoDup_group em missing BHigh)|].
  split; [|apply (NoDup_group em missing BMedium)].
  intros k Hh Hm.
  by pose proof (group_unique em missing BHigh BMedium k Hh Hm).
Qed.

(** C4, amended: the high, medium and low groups and the missing list are
    pairwise disjoint and none of the groups, nor either rendered list,
    repeats a key; the optional-confirmation list and the required-input
    list share no key; a key of the metadata with a numeric confidence that
    is not missing and not named ['age'] or ['Age'] is in one of the three
    groups, while ['age'] and ['Age'] are in none, required or not. *)
Theorem groups_partition (em : gmap string Meta) (missing : list string) :
  let g := groups em missing in
  (NoDup (high g) ∧ NoDup (medium g) ∧ NoDup (low g) ∧
   NoDup (optionalConfirmationKeys g) ∧ NoDup (requiredKeys missing g)) ∧
  (∀ k, k ∈ high g → (k ∉ medium g) ∧ (k ∉ low g) ∧ k ∉ missing) ∧
  (∀ k, k ∈ medium g → (k ∉ low g) ∧ k ∉ missing) ∧
  (∀ k, k ∈ low g → k ∉ missing) ∧
  (∀ k, k ∈ optionalConfirmationKeys g → k ∉ requiredKeys missing g) ∧
  (∀ k m c, em !! k = Some m → m_confidence m = JNum c → k ∉ missing →
            k ≠ "age" → k ≠ "Age" → k ∈ high g ∨ k ∈ medium g ∨ k ∈ low g) ∧
  (∀ k, k = "age" ∨ k = "Age" →
        (k ∉ high g) ∧ (k ∉ medium g) ∧ k ∉ low g).
Proof.
  intros g. split; [|split; [|split; [|split; [|split; [|split]]]]].
  - split; [apply (NoDup_group em missing BHigh)|].
    split; [apply (NoDup_group em missing BMedium)|].
    split; [apply (NoDup_group em missing BLow)|].
    split; [apply NoDup_optionalConfirmationKeys | apply NoDup_requiredKeys].
  - intros k Hh. split; [|split].
    + intros H. by pose proof (group_unique em missing BHigh BMedium k Hh H).
    + intros H. by pose proof (group_unique em missing BHigh BLow k Hh H).
    + apply (group_not_missing em missing BHigh k Hh).
  - intros k Hm. split.
    + intros H. by pose proof (group_unique em missing BMedium BLow k Hm H).
    + apply (group_not_missing em missing BMedium k Hm).
  - intros k Hl. apply (group_not_missing em missing BLow k Hl).
  - intros k. rewrite elem_of_optionalConfirmationKeys, elem_of_requiredKeys.
    intros [[Hh|Hm] _] [[Hmiss|Hl] _].
    + by apply (group_not_missing em missing BHigh k Hh).
    + by pose proof (group_unique em missing BHigh BLow k Hh Hl).
    + by apply (group_not_missing em missing BMedium k Hm).
    + by pose proof (group_unique em missing BMedium BLow k Hm Hl).
  - intros k m c Hk Hc Hmiss Ha HA.
    pose proof (bucket_of_number em missing k m c Hk Hc Hmiss Ha HA) as Hb.
    assert (Hsome : is_Some (em !! k)) by by eexists.
    destruct (js_ge c 0.95); [|destruct (js_ge c 0.9)].
    + left. by apply (elem_of_group em missing BHigh).
    + right; left. by apply (elem_of_group em missing BMedium).
    + right; right. by apply (elem_of_group em missing BLow).
  - intros k Hage. split; [|split]; intros H.
    + apply (group_not_age em missing BHigh) in H. tauto.
    + apply (group_not_age em missing BMedium) in H. tauto.
    + apply (group_not_age em missing BLow) in H. tauto.
Qed.

End UploadPartition.

(** ** The analyze guard (C5, C9) *)

Module UploadAnalyze.
Import Api Upload PushLoop UploadGroups.

(** A stand-in for [Number] on the values the examples use: numbers, [null],
    booleans, [undefined], the empty string and text that is no numeral. *)
Definition Number_sample (v : JsValue) : float :=
  match v with
  | JNum n => n
  | JNull => 0%float
  | JBool b => if b then 1%float else 0%float
  | JStr s => if bool_decide (s = "") then 0%float else nan
  | JUndefined | JObject => nan
  end.

(** A page with a chosen PDF, before the upload. *)
Definition fresh (t : Task) : State :=
  mkState t (Some "report.pdf") false None None None ∅ [] ∅ ∅ ∅ None.

(** A heart report in which nothing but the age is missing. *)
Definition ingest_age_missing : IngestResponse :=
  mkIngestResponse "r1" {[ "chol" := JNum 260 ]} ["age"] None
    (Some {[ "chol" := mkMeta (JNum 260) (JStr "mg/dL") (JNum 0.97) (JStr "ocr") ]})
    "heart" None None.

(** A heart report in which the maximum heart rate is missing. *)
Definition ingest_thalach_missing : IngestResponse :=
  mkIngestResponse "r2" {[ "chol" := JNum 260 ]} ["thalach"] None
    (Some {[ "chol" := mkMeta (JNum 260) (JStr "mg/dL") (JNum 0.97) (JStr "ocr") ]})
    "heart" None None.

Definition sample_prediction : PredictResponse :=
  mkPredictResponse heart 1 0.8 18 (Some ["chol"]) None "p1".

Section Guard.
Variable Number : JsValue → float.

(** The test the loop body applies to one missing key. *)
Definition invalid_at (st : State) (k : string) : bool :=
  negb (bool_decide (k = "age") || bool_decide (k = "Age"))
  && (is_blank (js_get (features st) k)
      || (bool_decide (k ∈ numericFieldsByTask (task st))
          && negb (Number_isFinite (Number (js_get (features st) k))))).

Lemma invalidMissing_visit_push st bad k :
  invalidMissing_visit Number st bad k =
  if invalid_at st k then bad ++ [k] else bad.
Proof.
  unfold invalidMissing_visit, invalid_at.
  destruct (bool_decide (k = "age") || bool_decide (k = "Age")); [done|].
  simpl. destruct (is_blank _); [done|]. simpl.
  destruct (bool_decide (k ∈ _)); [|done]. simpl.
  by destruct (Number_isFinite _).
Qed.

Lemma invalidMissing_filter st :
  haveIngest st = true →
  invalidMissing Number st = filter (λ k, invalid_at st k = true) (missing st).
Proof.
  intros H. unfold invalidMissing. rewrite H. simpl.
  by rewrite (foldl_push (invalid_at st))
    by apply invalidMissing_visit_push.
Qed.

Lemma elem_of_invalidMissing st k :
  k ∈ invalidMissing Number st ↔
  haveIngest st = true ∧ k ∈ missing st ∧ invalid_at st k = true.
Proof.
  destruct (haveIngest st) eqn:H.
  - rewrite invalidMissing_filter, list_elem_of_filter by done. tauto.
  - unfold invalidMissing. rewrite H. simpl. rewrite elem_of_nil.
    split; [done|]. by intros [? _].
Qed.

Lemma canAnalyze_true st :
  canAnalyze Number st = true ↔
  haveIngest st = true ∧ invalidMissing Number st = [] ∧ task st ≠ general.
Proof.
  unfold canAnalyze.
  rewrite !andb_true_iff, negb_true_iff, bool_decide_eq_true,
    bool_decide_eq_false, length_zero_iff_nil. tauto.
Qed.

Lemma analyzeAvailable_true st :
  analyzeAvailable Number st = true ↔
  canAnalyze Number st = true ∧ loading st = false.
Proof.
  unfold analyzeAvailable, actionButton. split.
  - destruct (haveIngest st) eqn:Hi; [|done].
    case_bool_decide; [done|].
    destruct (canAnalyze Number st); [|done]. by destruct (loading st).
  - intros [Hc Hl]. pose proof Hc as (Hi & _ & Hg)%canAnalyze_true.
    rewrite Hi, bool_decide_eq_false_2, Hc, Hl by done. done.
Qed.

(** The state with ['age'] and ['Age'] taken out of the missing list. *)
Definition without_age (st : State) : State :=
  mkState (task st) (file st) (loading st) (result st) (error st)
    (reportId st) (features st)
    (filter (λ k, k ≠ "age" ∧ k ≠ "Age") (missing st))
    (extractedMeta st) (lifestyle st) (symptoms st) (latest_result st).

Lemma invalid_at_not_age st k :
  invalid_at st k = true → k ≠ "age" ∧ k ≠ "Age".
Proof.
  unfold invalid_at. intros [H _]%andb_true_iff.
  apply negb_true_iff, orb_false_iff in H as [H1 H2].
  by apply bool_decide_eq_false in H1, H2.
Qed.

Lemma invalidMissing_without_age st :
  invalidMissing Number (without_age st) = invalidMissing Number st.
Proof.
  unfold invalidMissing.
  change (haveIngest (without_age st)) with (haveIngest st).
  destruct (haveIngest st); [|done]. simpl.
  rewrite !(foldl_push (invalid_at st)), !app_nil_l, list_filter_filter.
  - apply list_filter_iff. intros k. split; [tauto|].
    intros H. split; [done|]. by apply (invalid_at_not_age st).
  - apply invalidMissing_visit_push.
  - intros a k. exact (invalidMissing_visit_push (without_age st) a k).
Qed.

Lemma invalidMissing_with_age_value st k v :
  k = "age" ∨ k = "Age" →
  invalidMissing Number (onChangeFeature st k v) = invalidMissing Number st.
Proof.
  intros Hk. unfold invalidMissing.
  change (haveIngest (onChangeFeature st k v)) with (haveIngest st).
  destruct (haveIngest st); [|done]. simpl.
  rewrite (foldl_push (invalid_at (onChangeFeature st k v)))
    by apply invalidMissing_visit_push.
  rewrite (foldl_push (invalid_at st)) by apply invalidMissing_visit_push.
  f_equal. apply list_filter_iff. intros k'.
  assert (invalid_at (onChangeFeature st k v) k' = invalid_at st k') as ->; [|done].
  unfold invalid_at. destruct (decide (k' = k)) as [-> | Hne].
  - assert (bool_decide (k = "age") || bool_decide (k = "Age") = true) as ->;
      [|done].
    destruct Hk as [-> | ->]; by vm_compute.
  - unfold js_get. simpl. by rewrite lookup_insert_ne.
Qed.

End Guard.

(** A value that must be corrected before analysis: empty, or not a finite
    number although the task lists the field as numeric. *)
Definition invalid_value (Number : JsValue → float) (st : State) (k : string)
  : Prop :=
  is_blank (js_get (features st) k) = true ∨
  (k ∈ numericFieldsByTask (task st) ∧
   Number_isFinite (Number (js_get (features st) k)) = false).

Lemma invalid_value_at Number st k :
  k ≠ "age" → k ≠ "Age" → invalid_value Number st k →
  invalid_at Number st k = true.
Proof.
  intros Ha HA Hv. unfold invalid_at.
  rewrite (bool_decide_eq_false_2 (k = "age")) by done.
  rewrite (bool_decide_eq_false_2 (k = "Age")) by done. simpl.
  destruct Hv as [-> | [Hn Hf]]; [done|].
  by rewrite bool_decide_eq_true_2, Hf, orb_true_r.
Qed.

(** C5 as the specification words it: any missing field with an empty or
    non-finite value keeps the analysis from being started. *)
Definition any_invalid_missing_blocks : Prop :=
  ∀ (Number : JsValue → float) (st : State) (k : string),
    k ∈ missing st → invalid_value Number st k →
    analyzeAvailable Number st = false.

(** The page after uploading a heart report whose only missing field is the
    age: the placeholder [''] is stored for it. *)
Definition age_missing_page : State := onSubmit (fresh heart) (inl ingest_age_missing).

Example age_missing_page_fields :
  missing age_missing_page = ["age"] ∧
  js_get (features age_missing_page) "age" = JStr "" ∧
  haveIngest age_missing_page = true.
Proof. vm_compute. done. Qed.

Example age_missing_page_guard :
  invalidMissing Number_sample age_missing_page = [] ∧
  canAnalyze Number_sample age_missing_page = true ∧
  actionButton Number_sample age_missing_page = Some (AnalyzeButton false).
Proof. vm_compute. done. Qed.

(** C5, counterexample: the missing ['age'] holds the empty placeholder and
    the analyze button is enabled all the same. *)
Lemma blank_age_does_not_block : ¬ any_invalid_missing_blocks.
Proof.
  intros H.
  specialize (H Number_sample age_missing_page "age").
  assert (analyzeAvailable Number_sample age_missing_page = true) as Hon
    by (vm_compute; reflexivity).
  rewrite H in Hon; [discriminate| |].
  - vm_compute. apply list_elem_of_singleton. reflexivity.
  - left. vm_compute. reflexivity.
Qed.

(** C5, amended: whenever a missing field other than ['age'] and ['Age']
    holds an empty value, or a value that is no finite number although the
    field is in the task's numeric set, [canAnalyze] is false and the
    analyze button, the only caller of [onAnalyze], is not enabled. *)
Theorem invalid_missing_blocks_analysis (Number : JsValue → float)
    (st : State) (k : string) :
  k ∈ missing st → k ≠ "age" → k ≠ "Age" → invalid_value Number st k →
  canAnalyze Number st = false ∧
  analyzeAvailable Number st = false ∧
  actionButton Number st ≠ Some (AnalyzeButton false).
Proof.
  intros Hk Ha HA Hv.
  assert (Hc : canAnalyze Number st = false).
  { destruct (canAnalyze Number st) eqn:E; [|done].
    apply canAnalyze_true in E as (Hi & Hnil & _).
    assert (k ∈ invalidMissing Number st) as Hin.
    { apply elem_of_invalidMissing. auto using invalid_value_at. }
    rewrite Hnil in Hin. by apply elem_of_nil in Hin. }
  assert (Hoff : analyzeAvailable Number st = false).
  { destruct (analyzeAvailable Number st) eqn:E; [|done].
    apply analyzeAvailable_true in E as [E _]. congruence. }
  split; [done|]. split; [done|].
  intros Hb. unfold analyzeAvailable in Hoff. by rewrite Hb in Hoff.
Qed.

(** The page after uploading a heart report whose missing field is the
    maximum heart rate. *)
Definition thalach_missing_page : State :=
  onSubmit (fresh heart) (inl ingest_thalach_missing).

(** The amended C5 on the page whose missing maximum heart rate still holds
    the empty placeholder. *)
Lemma invalid_missing_blocks_analysis_witness :
  canAnalyze Number_sample thalach_missing_page = false ∧
  analyzeAvailable Number_sample thalach_missing_page = false ∧
  actionButton Number_sample thalach_missing_page ≠ Some (AnalyzeButton false).
Proof.
  apply (invalid_missing_blocks_analysis Number_sample thalach_missing_page
           "thalach").
  - vm_compute. apply list_elem_of_singleton. reflexivity.
  - discriminate.
  - discriminate.
  - left. vm_compute. reflexivity.
Defined.

(** C9: ['age'], ['Age'] and ['sex'] are in neither rendered list, whatever
    was extracted; ['age'] and ['Age'] are never reported by the validity
    check, and neither listing them as missing nor the value stored for
    them changes [canAnalyze]. *)
Theorem age_sex_exempt (Number : JsValue → float) (em : gmap string Meta)
    (miss : list string) (st : State) :
  let g := groups em miss in
  (∀ k, k = "age" ∨ k = "Age" ∨ k = "sex" →
        (k ∉ requiredKeys miss g) ∧ k ∉ optionalConfirmationKeys g) ∧
  (∀ k, k = "age" ∨ k = "Age" → k ∉ invalidMissing Number st) ∧
  canAnalyze Number (without_age st) = canAnalyze Number st ∧
  (∀ k v, k = "age" ∨ k = "Age" →
          canAnalyze Number (onChangeFeature st k v) = canAnalyze Number st).
Proof.
  intros g. split; [|split; [|split]].
  - intros k Hk. rewrite elem_of_requiredKeys, elem_of_optionalConfirmationKeys.
    unfold hidden. tauto.
  - intros k Hk (_ & _ & Hinv)%elem_of_invalidMissing.
    apply invalid_at_not_age in Hinv. tauto.
  - unfold canAnalyze. by rewrite invalidMissing_without_age.
  - intros k v Hk. unfold canAnalyze.
    by rewrite invalidMissing_with_age_value.
Qed.

Example age_exempt_on_age_missing_page :
  requiredKeys (missing age_missing_page)
    (groups (extractedMeta age_missing_page) (missing age_missing_page)) = [] ∧
  optionalConfirmationKeys
    (groups (extractedMeta age_missing_page) (missing age_missing_page)) = ["chol"].
Proof. vm_compute. done. Qed.

Example general_upload_stores_null_prediction :
  lr_prediction <$> latest_result (onSubmit (fresh general) (inl ingest_age_missing))
    = Some None ∧
  actionButton Number_sample (onSubmit (fresh general) (inl ingest_age_missing))
    = Some AdviceLink.
Proof. vm_compute. done. Qed.

Example heart_analysis_stores_prediction :
  lr_prediction <$>
    latest_result (onAnalyze (onChangeFeature thalach_missing_page "thalach" (JStr "150"))
                     (inl sample_prediction))
    = Some (Some (mkPrediction 1 0.8 18)).
Proof. vm_compute. done. Qed.

End UploadAnalyze.

(** ** The second copy of the upload page offers the high group too *)

Module UploadReviewFacts.
Import Api UploadReview.

Lemma elem_of_optionalConfirmationKeys_review (g : Groups) (k : string) :
  k ∈ optionalConfirmationKeys g ↔ (k ∈ high g ∨ k ∈ medium g) ∧ k ≠ "sex".
Proof.
  unfold optionalConfirmationKeys. simpl.
  by rewrite list_elem_of_filter, elem_of_app, (and_comm (k ≠ "sex")).
Qed.

(** Keys already pushed to the high group stay there. *)
Lemma high_grows em missing g l k :
  k ∈ high g → k ∈ high (foldl (groups_visit em missing) g l).
Proof.
  revert g. induction l as [|x l IH]; intros g Hk; simpl; [done|].
  apply IH. unfold groups_visit.
  case_bool_decide; [done|].
  destruct (Upload.confidence_at em x); try done.
  destruct (js_ge _ 0.95); simpl; [apply elem_of_app; by left|].
  by destruct (js_ge _ 0.9).
Qed.

Lemma high_of_visited em missing g l k m c :
  k ∈ l → em !! k = Some m → m_confidence m = JNum c → k ∉ missing →
  js_ge c 0.95 = true →
  k ∈ high (foldl (groups_visit em missing) g l).
Proof.
  intros Hin Hk Hc Hm Hge. revert g.
  induction l as [|x l IH]; intros g; [by apply elem_of_nil in Hin|].
  apply elem_of_cons in Hin as [<- | Hin]; simpl; [|by apply IH].
  apply high_grows. unfold groups_visit, Upload.confidence_at.
  rewrite bool_decide_eq_false_2, Hk, Hc, Hge by done. simpl.
  apply elem_of_app. right. by apply list_elem_of_singleton.
Qed.

(** In the copy with the review step as well, a field with confidence at
    least 0.95 is listed for optional confirmation unless it is ['sex']. *)
Lemma review_offers_high_confidence em missing k m c :
  em !! k = Some m → m_confidence m = JNum c → k ∉ missing →
  js_ge c 0.95 = true → k ≠ "sex" →
  k ∈ optionalConfirmationKeys (groups em missing).
Proof.
  intros Hk Hc Hm Hge Hs. apply elem_of_optionalConfirmationKeys_review.
  split; [left|done]. unfold groups.
  apply (high_of_visited em missing _ _ k m c); try done.
  apply PushLoop.elem_of_Object_keys. by eexists.
Qed.

Example review_groups_age :
  optionalConfirmationKeys (groups UploadTriage.age_only []) = ["age"].
Proof. vm_compute. reflexivity. Qed.

End UploadReviewFacts.

(** ** Risk wording derived from the label (C7) *)

Module RiskLevel.
Import Api Chat TriagePage.

(** A report of task [t] with prediction [p], as an analysis stores it. *)
Definition report_of (t : string) (p : Upload.Prediction) : ReportData :=
  mkReportData (Some t) (Some ∅) (Some p) (Some "p1") (Some ∅) (Some ∅).

(** A localStorage that holds [report] and no chat history. *)
Definition holding (report : ReportData) : LocalStorage :=
  mkLocalStorage (Some report) None None.

(** The triage page as first rendered. *)
Definition first_render : State := mkState None [] false None "".

(** The sentence that greets a new report, for a score and a risk wording. *)
Definition new_report_sentence (score wording : string) : string :=
  "Hello! I'm Dr. Intelligence, your AI Health Assistant. I've reviewed your new results and see you have a health score of "
  +:+ score +:+ "/100 with " +:+ wording
  +:+ " indicators. I'm here to provide professional medical guidance. Please feel free to ask any questions about your health status, test results, or next steps.".

(** C7 as the specification words it: which label counts as elevated risk
    is a parameter [adverse_class_label] of the task, and the wording shown
    for a report of that task follows it. *)
Definition risk_follows_adverse_class : Prop :=
  ∀ (toFixed1 : float → string) (same_json : ReportData → ReportData → bool)
    (adverse_class_label : string → float) (t : string) (p : Upload.Prediction),
    messages
      (checkForNewReport toFixed1 same_json None first_render
         (holding (report_of t p))).1 =
    [mkMessage None ai
       (new_report_sentence (toFixed1 (Upload.p_health_score p))
          (if PrimFloat.eqb (Upload.p_label p) (adverse_class_label t)
           then "higher risk" else "lower risk"))
       NoDate].

(** A table in which the positive class of the parkinsons task means "no
    disease": its adverse class is label 0, that of the other tasks label 1. *)
Definition parkinsons_inverted (t : string) : float :=
  if bool_decide (t = "parkinsons") then 0%float else 1%float.

(** C7, counterexample: with that table, a parkinsons prediction of label 1
    should read as lower risk; the page greets it with "higher risk". *)
Lemma label_one_is_always_higher_risk : ¬ risk_follows_adverse_class.
Proof.
  intros H.
  specialize (H (λ _, "80.0") (λ _ _, false) parkinsons_inverted "parkinsons"
                (Upload.mkPrediction 1 0.2 80)).
  vm_compute in H. discriminate H.
Qed.

Lemma sentence_wording (prefix wording wording' suffix : string) :
  prefix +:+ wording +:+ suffix = prefix +:+ wording' +:+ suffix →
  wording +:+ suffix = wording' +:+ suffix.
Proof. apply String.app_inj. Qed.

Lemma string_app_assoc (s1 s2 s3 : string) :
  (s1 +:+ s2) +:+ s3 = s1 +:+ s2 +:+ s3.
Proof.
  induction s1 as [|a s1 IH]; [done|].
  change (String a ((s1 +:+ s2) +:+ s3) = String a (s1 +:+ s2 +:+ s3)).
  by f_equal.
Qed.

Lemma riskLevel_eq (label label' : float) :
  riskLevel label = riskLevel label' ↔
  PrimFloat.eqb label 1 = PrimFloat.eqb label' 1.
Proof.
  unfold riskLevel.
  destruct (PrimFloat.eqb label 1), (PrimFloat.eqb label' 1); split; done.
Qed.

Lemma riskLevel_sentence (label label' : float) (suffix : string) :
  riskLevel label +:+ suffix = riskLevel label' +:+ suffix →
  riskLevel label = riskLevel label'.
Proof.
  unfold riskLevel.
  destruct (PrimFloat.eqb label 1), (PrimFloat.eqb label' 1);
    try done; intros H; simpl in H; discriminate H.
Qed.

(** C7, amended: the triage page takes the risk wording of its greetings
    from the prediction's label alone, in the same way for every task:
    label 1 reads as "higher risk", any other label as "lower risk".  The
    conversation it starts for a new report depends on the report only
    through its prediction, not through its task, and two predictions whose
    score prints alike are greeted alike exactly when both labels are 1 or
    neither is; the same holds for the greeting composed after the first
    render. *)
Theorem risk_wording_from_label_alone (toFixed1 : float → string)
    (same_json : ReportData → ReportData → bool) :
  (∀ p, newReportGreeting toFixed1 p =
        new_report_sentence (toFixed1 (Upload.p_health_score p))
          (if PrimFloat.eqb (Upload.p_label p) 1
           then "higher risk" else "lower risk")) ∧
  (∀ report report' st ls ls',
     ls_latest_result ls = Some report → ls_latest_result ls' = Some report' →
     rd_prediction report = rd_prediction report' →
     messages (checkForNewReport toFixed1 same_json None st ls).1 =
     messages (checkForNewReport toFixed1 same_json None st ls').1) ∧
  (∀ p p', toFixed1 (Upload.p_health_score p) = toFixed1 (Upload.p_health_score p') →
     (newReportGreeting toFixed1 p = newReportGreeting toFixed1 p' ↔
      PrimFloat.eqb (Upload.p_label p) 1 = PrimFloat.eqb (Upload.p_label p') 1)) ∧
  (∀ report report', rd_prediction report = rd_prediction report' →
     personalizedGreeting toFixed1 report = personalizedGreeting toFixed1 report') ∧
  (∀ report report' p p',
     rd_prediction report = Some p → rd_prediction report' = Some p' →
     toFixed1 (Upload.p_health_score p) = toFixed1 (Upload.p_health_score p') →
     (personalizedGreeting toFixed1 report = personalizedGreeting toFixed1 report' ↔
      PrimFloat.eqb (Upload.p_label p) 1 = PrimFloat.eqb (Upload.p_label p') 1)).
Proof.
  split; [|split; [|split; [|split]]].
  - intros p. unfold newReportGreeting, new_report_sentence, riskLevel.
    by destruct (PrimFloat.eqb (Upload.p_label p) 1).
  - intros report report' st ls ls' Hl Hl' Hp. unfold checkForNewReport.
    rewrite Hl, Hl'. simpl. by rewrite Hp.
  - intros p p' Hs. rewrite <- riskLevel_eq. unfold newReportGreeting.
    rewrite Hs. split.
    + intros H. do 3 apply String.app_inj in H.
      by apply riskLevel_sentence in H.
    + by intros ->.
  - intros report report' Hp. unfold personalizedGreeting. by rewrite Hp.
  - intros report report' p p' Hp Hp' Hs. rewrite <- riskLevel_eq.
    unfold personalizedGreeting. rewrite Hp, Hp', Hs. split.
    + intros H. apply String.app_inj in H.
      rewrite !string_app_assoc in H. do 3 apply String.app_inj in H.
      by apply riskLevel_sentence in H.
    + by intros ->.
Qed.

Example parkinsons_label_one_greeting :
  messages
    (checkForNewReport (λ _, "80.0") (λ _ _, false) None first_render
       (holding (report_of "parkinsons" (Upload.mkPrediction 1 0.2 80)))).1 =
  [mkMessage None ai (new_report_sentence "80.0" "higher risk") NoDate].
Proof. vm_compute. reflexivity. Qed.

End RiskLevel.

(** ** The persisted chat history (C10) *)

Module ChatHistory.
Import Chat Session.

Lemma length_slice_last {A : Type} (n : nat) (l : list A) :
  length (slice_last n l) = n `min` length l.
Proof. unfold slice_last. rewrite length_drop. lia. Qed.

Lemma slice_last_suffix {A : Type} (n : nat) (l : list A) :
  slice_last n l `suffix_of` l.
Proof. apply suffix_drop. Qed.

Lemma slice_last_short {A : Type} (n : nat) (l : list A) :
  length l ≤ n → slice_last n l = l.
Proof.
  intros H. unfold slice_last.
  by replace (length l - n) with 0 by lia.
Qed.

(** [stored] is the last ten of [full]: the tail end of [full], ten
    messages long, or all of [full] when it has fewer. *)
Definition last_ten_of (full stored : list Message) : Prop :=
  stored `suffix_of` full ∧ length stored = 10 `min` length full.

Lemma slice_last_last_ten (full : list Message) :
  last_ten_of full (slice_last 10 full).
Proof. split; [apply slice_last_suffix | apply length_slice_last]. Qed.

(** The last ten of a conversation are determined by it. *)
Lemma last_ten_of_unique (full l1 l2 : list Message) :
  last_ten_of full l1 → last_ten_of full l2 → l1 = l2.
Proof.
  intros [[k1 H1] Hl1] [[k2 H2] Hl2].
  assert (Hlen : length k1 = length k2).
  { apply (f_equal length) in H1, H2. rewrite length_app in H1, H2. lia. }
  rewrite H1 in H2. by apply app_inj_1 in H2 as [_ ?].
Qed.

(** Both stored histories hold at most ten messages. *)
Definition bounded (ls : LocalStorage) : Prop :=
  (∀ l, ls_triage ls = Some l → length l ≤ 10) ∧
  (∀ l, ls_floating ls = Some l → length l ≤ 10).

Lemma bounded_empty report : bounded (mkLocalStorage report None None).
Proof. by split. Qed.

Section Run.
Variable toFixed1 : float → string.
Variable formatMedicalResponse : string → string.
Variable trim : string → string.
Variable id_of : Z → string.
Variable same_json : ReportData → ReportData → bool.

Local Abbreviation step := (step toFixed1 formatMedicalResponse trim id_of same_json).
Local Abbreviation run := (run toFixed1 formatMedicalResponse trim id_of same_json).

(** The question and the answer an [ask] appends to the messages of its
    closure before storing: after a reply the user message of the click and
    the formatted reply; after an error a copy of the question stamped
    anew and the formatted error text. *)
Definition asked (c : TriagePage.AskClosure) (later later' : Z)
    (r : TriagePage.TriageReply + string) : list Message :=
  match r with
  | inl reply =>
      [TriagePage.ask_userMessage c;
       mkMessage None ai (formatMedicalResponse (TriagePage.triage_summary reply))
         (DateAt later)]
  | inr detail =>
      [mkMessage None user (TriagePage.ask_q c) (DateAt later');
       mkMessage None ai (formatMedicalResponse detail) (DateAt later)]
  end.

(** The user message and the reply a [sendMessage] appends before storing. *)
Definition sent (c : ChatBot.SendClosure) (later_id later : Z)
    (summary : option string) : list Message :=
  [ChatBot.send_userMessage c;
   mkMessage (Some (id_of (later_id + 1))) assistant
     (formatMedicalResponse
        (default "I apologize, but I couldn't generate a response. Please try again."
           summary))
     (DateAt later)].

(** The storage after one event. *)
Lemma storage_step (w : World) (e : Event) :
  storage (step w e) =
  match e with
  | PageLocation navigationData =>
      (TriagePage.onLocation navigationData (page w) (storage w)).2
  | PageCheckForNewReport latest_seen =>
      (TriagePage.checkForNewReport toFixed1 same_json latest_seen (page w)
         (storage w)).2
  | PageAnswer n later later' r =>
      match asks w !! n with
      | Some c =>
          (TriagePage.ask_answer formatMedicalResponse c later later' r (page w)
             (storage w)).2
      | None => storage w
      end
  | BotAnswer later_id later response =>
      match sending w with
      | Some c =>
          (ChatBot.sendMessage_answer formatMedicalResponse id_of c later_id later
             response (bot w) (storage w)).2
      | None => storage w
      end
  | BotNewReport => (ChatBot.newReport (bot w) (storage w)).2
  | _ => storage w
  end.
Proof.
  destruct e; simpl; try done.
  - by destruct (TriagePage.onLocation _ _ _).
  - by destruct (TriagePage.checkForNewReport _ _ _ _ _).
  - by destruct (TriagePage.ask_click _ _ _ _ _ _) as [? []].
  - destruct (asks w !! n); [|done].
    by destruct (TriagePage.ask_answer _ _ _ _ _ _ _).
  - by destruct (notes w).
  - by destruct (ChatBot.sendMessage_click _ _ _ _ _ _) as [? []].
  - destruct (sending w); [|done].
    by destruct (ChatBot.sendMessage_answer _ _ _ _ _ _ _ _).
Qed.

(** What an answered or failed question leaves under the triage key. *)
Lemma ask_answer_storage c later later' r st ls :
  (TriagePage.ask_answer formatMedicalResponse c later later' r st ls).2 =
  mkLocalStorage (ls_latest_result ls)
    (Some (slice_last 10 (TriagePage.ask_messages c ++ asked c later later' r)))
    (ls_floating ls).
Proof. by destruct r. Qed.

(** What the chatbot's answer leaves in the storage: a reply is stored under
    the floating key, a failure changes nothing. *)
Lemma sendMessage_answer_storage c later_id later response ls st :
  (ChatBot.sendMessage_answer formatMedicalResponse id_of c later_id later
     response st ls).2 =
  match response with
  | inl summary =>
      mkLocalStorage (ls_latest_result ls) (ls_triage ls)
        (Some (slice_last 10 (ChatBot.send_messages c ++ sent c later_id later summary)))
  | inr _ => ls
  end.
Proof. by destruct response. Qed.

(** The triage history after one event: written by the answer to a question
    in flight, removed by a check that finds a new report, else untouched. *)
Lemma triage_step (w : World) (e : Event) :
  ls_triage (storage (step w e)) =
  match e with
  | PageAnswer n later later' r =>
      match asks w !! n with
      | Some c =>
          Some (slice_last 10 (TriagePage.ask_messages c ++ asked c later later' r))
      | None => ls_triage (storage w)
      end
  | PageCheckForNewReport latest_seen =>
      ls_triage
        (TriagePage.checkForNewReport toFixed1 same_json latest_seen (page w)
           (storage w)).2
  | _ => ls_triage (storage w)
  end.
Proof.
  rewrite storage_step. destruct e; try done.
  - unfold TriagePage.onLocation. destruct navigationData; [done|].
    by destruct (ls_latest_result _).
  - destruct (asks w !! n); [|done]. by rewrite ask_answer_storage.
  - destruct (sending w); [|done]. rewrite sendMessage_answer_storage.
    by destruct response.
Qed.

Lemma checkForNewReport_triage latest_seen st ls :
  ls_triage (TriagePage.checkForNewReport toFixed1 same_json latest_seen st ls).2
    = ls_triage ls ∨
  ls_triage (TriagePage.checkForNewReport toFixed1 same_json latest_seen st ls).2
    = None.
Proof.
  unfold TriagePage.checkForNewReport.
  destruct (ls_latest_result ls); [|by left].
  destruct latest_seen as [l|]; [destruct (negb _)|]; simpl; auto.
Qed.

(** The floating history after one event: written by the reply to the
    message in flight, removed when the chatbot sees a new report, else
    untouched. *)
Lemma floating_step (w : World) (e : Event) :
  ls_floating (storage (step w e)) =
  match e with
  | BotAnswer later_id later (inl summary) =>
      match sending w with
      | Some c =>
          Some (slice_last 10 (ChatBot.send_messages c ++ sent c later_id later summary))
      | None => ls_floating (storage w)
      end
  | BotNewReport => None
  | _ => ls_floating (storage w)
  end.
Proof.
  rewrite storage_step. destruct e; try done.
  - unfold TriagePage.onLocation. destruct navigationData; [done|].
    by destruct (ls_latest_result _).
  - unfold TriagePage.checkForNewReport.
    destruct (ls_latest_result _); [|done].
    destruct latest_seen as [l|]; [destruct (negb _)|]; done.
  - destruct (asks w !! n); [|done]. by rewrite ask_answer_storage.
  - destruct (sending w); [by rewrite sendMessage_answer_storage; destruct response|].
    by destruct response.
Qed.

Lemma step_bounded (w : World) (e : Event) :
  bounded (storage w) → bounded (storage (step w e)).
Proof.
  intros [Ht Hf]. split; intros l.
  - rewrite triage_step. destruct e; try apply Ht.
    + destruct (checkForNewReport_triage latest_seen (page w) (storage w))
        as [-> | ->]; [apply Ht | done].
    + destruct (asks w !! n); [|apply Ht].
      intros [= <-]. rewrite length_slice_last. lia.
  - rewrite floating_step. destruct e; try apply Hf; [|done].
    destruct response; [|apply Hf]. destruct (sending w); [|apply Hf].
    intros [= <-]. rewrite length_slice_last. lia.
Qed.

Lemma run_bounded (w : World) (events : list Event) :
  bounded (storage w) → bounded (storage (run w events)).
Proof.
  unfold Session.run. revert w.
  induction events as [|e events IH]; intros w Hb; simpl; [done|].
  apply IH. by apply step_bounded.
Qed.

(** C10: at every point of every session of the triage page and the
    chatbot (questions, answers, failures, new reports, storage events, in
    any order and with any number of questions in flight), whenever an
    event leaves a chat history in localStorage that was not there before,
    the event is the answer (reply or error) to a question in flight on the
    triage page, respectively the reply to the chatbot's message in flight,
    and what is stored is the last ten of the conversation of that
    handler's closure followed by the question and the answer: its tail
    end, ten messages long, or all of it when it has fewer.  Every such
    answer does store a history, and no stored history ever exceeds ten
    messages, provided none did at the start. *)
Theorem persisted_history_is_last_ten (w : World) (events : list Event) :
  bounded (storage w) →
  let w' := run w events in
  bounded (storage w') ∧
  (∀ e l,
     ls_triage (storage (step w' e)) = Some l →
     ls_triage (storage w') ≠ Some l →
     ∃ n later later' r c,
       e = PageAnswer n later later' r ∧ asks w' !! n = Some c ∧
       last_ten_of (TriagePage.ask_messages c ++ asked c later later' r) l) ∧
  (∀ e l,
     ls_floating (storage (step w' e)) = Some l →
     ls_floating (storage w') ≠ Some l →
     ∃ later_id later summary c,
       e = BotAnswer later_id later (inl summary) ∧ sending w' = Some c ∧
       last_ten_of (ChatBot.send_messages c ++ sent c later_id later summary) l) ∧
  (∀ n later later' r c, asks w' !! n = Some c →
     ∃ l, ls_triage (storage (step w' (PageAnswer n later later' r))) = Some l ∧
          last_ten_of (TriagePage.ask_messages c ++ asked c later later' r) l) ∧
  (∀ later_id later summary c, sending w' = Some c →
     ∃ l, ls_floating (storage (step w' (BotAnswer later_id later (inl summary))))
            = Some l ∧
          last_ten_of (ChatBot.send_messages c ++ sent c later_id later summary) l).
Proof.
  intros Hb w'. split; [by apply run_bounded|].
  split; [|split; [|split]].
  - intros e l. rewrite triage_step. destruct e; try done.
    + destruct (checkForNewReport_triage latest_seen (page w') (storage w'))
        as [-> | ->]; done.
    + destruct (asks w' !! n) as [c|] eqn:Hc; [|done].
      intros [= <-] _. exists n, later, later', r, c.
      split; [done|]. split; [done|]. apply slice_last_last_ten.
  - intros e l. rewrite floating_step. destruct e; try done.
    destruct response as [summary|]; [|done].
    destruct (sending w') as [c|] eqn:Hc; [|done].
    intros [= <-] _. exists later_id, later, summary, c.
    split; [done|]. split; [done|]. apply slice_last_last_ten.
  - intros n later later' r c Hc. rewrite triage_step, Hc.
    eexists. split; [done|]. apply slice_last_last_ten.
  - intros later_id later summary c Hc. rewrite floating_step, Hc.
    eexists. split; [done|]. apply slice_last_last_ten.
Qed.

End Run.

(** A conversation of six questions on an opened report, each answered. *)
Definition report : ReportData :=
  mkReportData (Some "heart") (Some ∅) (Some (Upload.mkPrediction 1 0.8 18))
    (Some "p1") (Some ∅) (Some ∅).

Definition start : World :=
  mkWorld (TriagePage.mkState (Some report) [] false None "")
          (ChatBot.mkState [] "" false) (mkLocalStorage (Some report) None None)
          [] 0 None.

Definition reply : TriagePage.TriageReply :=
  TriagePage.mkTriageReply "Please see a cardiologist." [] "demo".

Definition play (w : World) (events : list Event) : World :=
  run (λ _, "18.0") id id (λ _, "1") (λ _ _, true) w events.

(** Asking [q] from the render on screen, and the reply to it. *)
Definition ask_now (w : World) (q : string) : World :=
  play
    (play w [PageAsk (TriagePage.latest (page w)) (TriagePage.messages (page w)) q 0])
    [PageAnswer 0 1 2 (inl reply); PageNoteDone].

Definition ask_all (w : World) (qs : list string) : World := foldl ask_now w qs.

Definition six_questions : list string := ["a"; "b"; "c"; "d"; "e"; "f"].

Example twelve_messages_ten_stored :
  length (TriagePage.messages (page (ask_all start six_questions))) = 12 ∧
  length <$> ls_triage (storage (ask_all start six_questions)) = Some 10 ∧
  content <$> default [] (ls_triage (storage (ask_all start six_questions))) !! 0
    = Some "b" ∧
  ls_triage (storage (ask_all start six_questions)) =
    Some (drop 2 (TriagePage.messages (page (ask_all start six_questions)))).
Proof. vm_compute. done. Qed.

(** Six questions whose answers all fail: the stored history is again the
    last ten. *)
Definition fail_now (w : World) (q : string) : World :=
  play
    (play w [PageAsk (TriagePage.latest (page w)) (TriagePage.messages (page w)) q 0])
    [PageAnswer 0 1 2 (inr "Network Error")].

Example twelve_messages_ten_stored_after_errors :
  length (TriagePage.messages (page (foldl fail_now start six_questions))) = 12 ∧
  length <$> ls_triage (storage (foldl fail_now start six_questions)) = Some 10 ∧
  content <$> default [] (ls_triage (storage (foldl fail_now start six_questions))) !! 0
    = Some "b".
Proof. vm_compute. done. Qed.

(** C10 on a short session that starts without stored histories. *)
Lemma persisted_history_is_last_ten_witness :
  bounded
    (storage
       (play start
          [PageAsk (Some report) [] "a" 0;
           BotInput "hello";
           BotSend [] 2 3;
           PageAnswer 0 4 5 (inl reply);
           BotAnswer 6 7 (inl (Some "Rest well."));
           PageCheckForNewReport None])).
Proof.
  refine (proj1 (persisted_history_is_last_ten (λ _, "18.0") id id (λ _, "1")
                   (λ _ _, true) start _ _)).
  apply bounded_empty.
Defined.

End ChatHistory.

(** ** The upload page: what an upload leaves in the form *)

Module UploadFlow.
Import Api Upload PushLoop UploadGroups UploadAnalyze.

(** A field the placeholder loop fills when it is missing and was not
    extracted: any name that [Object.prototype] does not already answer
    to. *)
Definition fillable (k : string) : bool :=
  negb (bool_decide (k ∈ Object_prototype_members)).

Lemma placeholder_lookup (f : gmap string JsValue) (x k : string) :
  placeholder f x !! k =
  match f !! k with
  | Some v => Some v
  | None => if bool_decide (k = x) && fillable k then Some (JStr "") else None
  end.
Proof.
  unfold placeholder, js_in, fillable. destruct (f !! x) as [vx|] eqn:Hx.
  - rewrite bool_decide_eq_true_2 by by eexists. simpl.
    destruct (f !! k) eqn:Hk; [done|].
    case_bool_decide; [congruence | done].
  - rewrite (bool_decide_eq_false_2 (is_Some None)) by by intros [? ?].
    simpl. case_bool_decide as Hp; simpl.
    + destruct (f !! k) eqn:Hk; [done|].
      case_bool_decide as Hkx; [|done]. subst k.
      by rewrite bool_decide_eq_true_2.
    + rewrite lookup_insert. case_decide as Hd.
      * subst x. rewrite Hx. rewrite bool_decide_eq_true_2 by done.
        by rewrite bool_decide_eq_false_2.
      * destruct (f !! k); [done|]. by rewrite bool_decide_eq_false_2.
Qed.

Lemma placeholder_fold_lookup (l : list string) (f : gmap string JsValue) (k : string) :
  foldl placeholder f l !! k =
  match f !! k with
  | Some v => Some v
  | None => if bool_decide (k ∈ l) && fillable k then Some (JStr "") else None
  end.
Proof.
  revert f. induction l as [|x l IH]; intros f; simpl.
  - by destruct (f !! k).
  - rewrite IH, placeholder_lookup. destruct (f !! k); [done|].
    pose proof (elem_of_cons l k x) as Hcons.
    destruct (fillable k); rewrite ?andb_true_r, ?andb_false_r; [|done].
    repeat case_bool_decide; try done; tauto.
Qed.

(** What [features[k]] reads after the placeholder loop. *)
Lemma placeholder_fold_get (l : list string) (f : gmap string JsValue) (k : string) :
  js_get (foldl placeholder f l) k =
  match f !! k with
  | Some v => v
  | None =>
      if bool_decide (k ∈ Object_prototype_members) then JObject
      else if bool_decide (k ∈ l) then JStr "" else JUndefined
  end.
Proof.
  unfold js_get. rewrite placeholder_fold_lookup. unfold fillable.
  destruct (f !! k); [done|].
  by repeat case_bool_decide.
Qed.

(** No numeric field of a task is named like a member of
    [Object.prototype]. *)
Lemma prototype_not_numeric (t : Task) (k : string) :
  k ∈ Object_prototype_members → k ∉ numericFieldsByTask t.
Proof.
  unfold Object_prototype_members. intros Hk.
  repeat (apply elem_of_cons in Hk as [-> | Hk];
          [destruct t; apply (bool_decide_eq_false_1 (_ ∈ _)); vm_compute; reflexivity|]).
  by apply elem_of_nil in Hk.
Qed.

(** X1: after a successful upload the form holds, for every field, the
    extracted value when there is one, the empty placeholder when the field
    is missing, was not extracted and is not named like a member of
    [Object.prototype], and no entry otherwise: no extracted value is
    overwritten and no other entry is invented.  A missing field named like
    such a member (['constructor'], ['toString'], ...) gets no placeholder,
    because [k in f] already holds for it; the form then reads the inherited
    member for it. *)
Theorem upload_fills_form (st : State) (r : IngestResponse) (k : string) :
  file st ≠ None →
  features (onSubmit st (inl r)) !! k =
    match extracted r !! k with
    | Some v => Some v
    | None =>
        if bool_decide (k ∈ missing_fields r)
           && negb (bool_decide (k ∈ Object_prototype_members))
        then Some (JStr "") else None
    end ∧
  js_get (features (onSubmit st (inl r))) k =
    match extracted r !! k with
    | Some v => v
    | None =>
        if bool_decide (k ∈ Object_prototype_members) then JObject
        else if bool_decide (k ∈ missing_fields r) then JStr "" else JUndefined
    end.
Proof.
  intros Hfile. unfold onSubmit. destruct (file st); [|done]. simpl.
  split; [apply placeholder_fold_lookup | apply placeholder_fold_get].
Qed.

(** X1 on the report whose maximum heart rate is missing. *)
Lemma upload_fills_form_witness :
  features (onSubmit (fresh heart) (inl ingest_thalach_missing)) !! "thalach" =
    match extracted ingest_thalach_missing !! "thalach" with
    | Some v => Some v
    | None =>
        if bool_decide ("thalach" ∈ missing_fields ingest_thalach_missing)
           && negb (bool_decide ("thalach" ∈ Object_prototype_members))
        then Some (JStr "") else None
    end ∧
  js_get (features (onSubmit (fresh heart) (inl ingest_thalach_missing))) "thalach" =
    match extracted ingest_thalach_missing !! "thalach" with
    | Some v => v
    | None =>
        if bool_decide ("thalach" ∈ Object_prototype_members) then JObject
        else if bool_decide ("thalach" ∈ missing_fields ingest_thalach_missing)
             then JStr "" else JUndefined
    end.
Proof.
  apply (upload_fills_form (fresh heart) ingest_thalach_missing "thalach").
  discriminate.
Defined.

(** A report that lists ['constructor'] as missing: no placeholder is
    stored for it, the form reads the inherited function, and the analysis
    is not held back. *)
Definition ingest_constructor_missing : IngestResponse :=
  mkIngestResponse "r3" {[ "chol" := JNum 260 ]} ["constructor"] None None
    "heart" None None.

Example constructor_gets_no_placeholder :
  features (onSubmit (fresh heart) (inl ingest_constructor_missing)) !! "constructor"
    = None ∧
  js_get (features (onSubmit (fresh heart) (inl ingest_constructor_missing)))
    "constructor" = JObject ∧
  invalidMissing Number_sample (onSubmit (fresh heart) (inl ingest_constructor_missing))
    = [] ∧
  analyzeAvailable Number_sample
    (onSubmit (fresh heart) (inl ingest_constructor_missing)) = true.
Proof. vm_compute. done. Qed.

Lemma invalid_at_iff Number st k :
  invalid_at Number st k = true ↔
  k ≠ "age" ∧ k ≠ "Age" ∧ invalid_value Number st k.
Proof.
  split.
  - intros H. pose proof (invalid_at_not_age Number st k H) as [Ha HA].
    split; [done|]. split; [done|]. unfold invalid_at in H.
    apply andb_true_iff in H as [_ H]. apply orb_true_iff in H as [H|H].
    + by left.
    + right. apply andb_true_iff in H as [H1 H2].
      split; [by apply bool_decide_eq_true in H1 | by apply negb_true_iff in H2].
  - intros (Ha & HA & Hv). by apply invalid_value_at.
Qed.

(** The validity check reports nothing exactly when no validated missing
    field holds an invalid value. *)
Lemma invalidMissing_nil Number st :
  haveIngest st = true →
  invalidMissing Number st = [] ↔
  ∀ k, k ∈ missing st → k ≠ "age" → k ≠ "Age" → ¬ invalid_value Number st k.
Proof.
  intros Hi. split.
  - intros Hnil k Hk Ha HA Hv.
    assert (k ∈ invalidMissing Number st) as Hin.
    { apply elem_of_invalidMissing. auto using invalid_value_at. }
    rewrite Hnil in Hin. by apply elem_of_nil in Hin.
  - intros Hall.
    destruct (invalidMissing Number st) as [|k l] eqn:E; [done|].
    assert (k ∈ invalidMissing Number st) as Hin by (rewrite E; apply elem_of_cons; tauto).
    apply elem_of_invalidMissing in Hin as (_ & Hk & Hinv).
    apply invalid_at_iff in Hinv as (Ha & HA & Hv).
    by destruct (Hall k Hk Ha HA).
Qed.

(** X2: the analysis can be started exactly when a report is ingested, the
    task is not the general one, and every missing field other than ['age']
    and ['Age'] holds a value that is not empty and, for a numeric field of
    the task, converts to a finite number. *)
Theorem canAnalyze_iff (Number : JsValue → float) (st : State) :
  canAnalyze Number st = true ↔
  haveIngest st = true ∧ task st ≠ general ∧
  ∀ k, k ∈ missing st → k ≠ "age" → k ≠ "Age" → ¬ invalid_value Number st k.
Proof.
  rewrite canAnalyze_true. split.
  - intros (Hi & Hnil & Hg). split; [done|]. split; [done|].
    by apply invalidMissing_nil.
  - intros (Hi & Hg & Hall). split; [done|]. split; [|done].
    by apply invalidMissing_nil.
Qed.

(** A value the analysis accepts for field [k] of task [t]. *)
Definition acceptable (Number : JsValue → float) (t : Task) (k : string)
    (v : JsValue) : Prop :=
  is_blank v = false ∧
  (k ∈ numericFieldsByTask t → Number_isFinite (Number v) = true).

(** X3: right after a successful upload the analyze button is enabled
    exactly when the report id is not empty, the task is not the general
    one, and every missing field other than ['age'] and ['Age'] either came
    with an acceptable extracted value or is named like a member of
    [Object.prototype] (for which the form reads the inherited member, which
    is not empty, and which no task lists as numeric).  Any other missing
    field that was not extracted has to be typed in first. *)
Theorem upload_then_analyze (Number : JsValue → float) (st : State)
    (r : IngestResponse) :
  file st ≠ None →
  analyzeAvailable Number (onSubmit st (inl r)) = true ↔
  report_id r ≠ "" ∧ task st ≠ general ∧
  ∀ k, k ∈ missing_fields r → k ≠ "age" → k ≠ "Age" →
       (∃ v, extracted r !! k = Some v ∧ acceptable Number (task st) k v) ∨
       (extracted r !! k = None ∧ k ∈ Object_prototype_members).
Proof.
  intros Hfile.
  rewrite analyzeAvailable_true, canAnalyze_true.
  assert (Hf : ∀ k, js_get (features (onSubmit st (inl r))) k =
                match extracted r !! k with
                | Some v => v
                | None =>
                    if bool_decide (k ∈ Object_prototype_members) then JObject
                    else if bool_decide (k ∈ missing_fields r) then JStr ""
                         else JUndefined
                end).
  { intros k. unfold onSubmit. destruct (file st); [|done]. simpl.
    apply placeholder_fold_get. }
  assert (Hshape : haveIngest (onSubmit st (inl r)) = negb (bool_decide (report_id r = ""))
                   ∧ task (onSubmit st (inl r)) = task st
                   ∧ missing (onSubmit st (inl r)) = missing_fields r
                   ∧ loading (onSubmit st (inl r)) = false).
  { unfold onSubmit, haveIngest. by destruct (file st). }
  destruct Hshape as (Hi & Ht & Hm & Hl). rewrite Ht, Hl.
  assert (Hid : haveIngest (onSubmit st (inl r)) = true ↔ report_id r ≠ "").
  { by rewrite Hi, negb_true_iff, bool_decide_eq_false. }
  split.
  - intros [(Hin & Hnil & Hg) _]. split; [by apply Hid|]. split; [done|].
    pose proof (proj1 (invalidMissing_nil Number _ Hin) Hnil) as Hall.
    clear Hnil. rename Hall into Hnil. rewrite Hm in Hnil.
    intros k Hk Ha HA. specialize (Hnil k Hk Ha HA).
    unfold invalid_value in Hnil. rewrite Hf, Ht in Hnil.
    destruct (extracted r !! k) as [v|] eqn:Hv.
    + left. exists v. split; [done|]. split.
      * destruct (is_blank v); [|done]. destruct Hnil. by left.
      * intros Hn. destruct (Number_isFinite (Number v)) eqn:E; [done|].
        destruct Hnil. by right.
    + right. split; [done|]. case_bool_decide as Hp; [done|].
      rewrite bool_decide_eq_true_2 in Hnil by done.
      destruct Hnil. by left.
  - intros (Hrid & Hg & Hall). apply Hid in Hrid.
    split; [|done]. split; [done|]. split; [|done].
    apply invalidMissing_nil; [done|]. rewrite Hm.
    intros k Hk Ha HA. unfold invalid_value. rewrite Hf, Ht.
    destruct (Hall k Hk Ha HA) as [(v & Hv & Hblank & Hnum) | [Hv Hp]];
      rewrite Hv.
    + intros [Hb | [Hn Hfin]]; [congruence|]. specialize (Hnum Hn). congruence.
    + rewrite bool_decide_eq_true_2 by done.
      intros [Hb | [Hn _]]; [done|]. by apply (prototype_not_numeric (task st) k).
Qed.

(** A heart report in which nothing is missing. *)
Definition ingest_complete : IngestResponse :=
  mkIngestResponse "r4" {[ "chol" := JNum 260; "thalach" := JNum 150 ]} [] None
    (Some {[ "chol" := mkMeta (JNum 260) (JStr "mg/dL") (JNum 0.97) (JStr "ocr") ]})
    "heart" None None.

(** X3 on the report whose maximum heart rate is missing: the button stays
    disabled. *)
Lemma upload_then_analyze_witness :
  analyzeAvailable Number_sample (onSubmit (fresh heart) (inl ingest_thalach_missing))
    = true ↔
  report_id ingest_thalach_missing ≠ "" ∧ task (fresh heart) ≠ general ∧
  ∀ k, k ∈ missing_fields ingest_thalach_missing → k ≠ "age" → k ≠ "Age" →
       (∃ v, extracted ingest_thalach_missing !! k = Some v ∧
             acceptable Number_sample (task (fresh heart)) k v) ∨
       (extracted ingest_thalach_missing !! k = None ∧
        k ∈ Object_prototype_members).
Proof.
  apply (upload_then_analyze Number_sample (fresh heart) ingest_thalach_missing).
  discriminate.
Defined.

Example complete_report_can_be_analyzed :
  analyzeAvailable Number_sample (onSubmit (fresh heart) (inl ingest_complete)) = true ∧
  analyzeAvailable Number_sample
    (onSubmit (fresh heart) (inl ingest_thalach_missing)) = false.
Proof. vm_compute. done. Qed.

End UploadFlow.

(** ** The upload page: editing, advice and what every session keeps *)

Module UploadSession.
Import Api Upload PushLoop UploadGroups UploadAnalyze UploadFlow.

(** X4: typing into the input of field [k] changes the verdict of the
    validity check for [k] only: every other field stays reported or
    unreported as before, and [k] is reported afterwards exactly when it is a
    validated missing field and the new value is not acceptable. *)
Theorem edit_touches_one_field (Number : JsValue → float) (st : State)
    (k : string) (v : JsValue) (k' : string) :
  k' ∈ invalidMissing Number (onChangeFeature st k v) ↔
  (k' ≠ k ∧ k' ∈ invalidMissing Number st) ∨
  (k' = k ∧ haveIngest st = true ∧ k ∈ missing st ∧ k ≠ "age" ∧ k ≠ "Age" ∧
   (is_blank v = true ∨
    (k ∈ numericFieldsByTask (task st) ∧ Number_isFinite (Number v) = false))).
Proof.
  rewrite !elem_of_invalidMissing, !invalid_at_iff.
  change (haveIngest (onChangeFeature st k v)) with (haveIngest st).
  change (missing (onChangeFeature st k v)) with (missing st).
  unfold invalid_value, js_get.
  change (task (onChangeFeature st k v)) with (task st).
  change (features (onChangeFeature st k v)) with (<[k := v]> (features st)).
  destruct (decide (k' = k)) as [-> | Hne].
  - rewrite lookup_insert_eq. simpl. tauto.
  - rewrite lookup_insert_ne by done. tauto.
Qed.

(** X5: the report data handed to the triage page carries the prediction
    and the prediction id of the analysis that was stored last, and the task,
    features, lifestyle and symptoms now on the form, while the stored result
    carries those of the moment the analysis was requested.  The two objects
    are the same exactly when none of the four was changed while the
    prediction was awaited; in particular they are the same when the
    analysis ran without anything happening in between. *)
Theorem advice_payload_and_stored_result (c : Closure) (r : PredictResponse)
    (st : State) :
  let settled := onAnalyze_settle c (inl r) st in
  let prediction := Some (mkPrediction (label r) (probability r) (health_score r)) in
  latest_result settled =
    Some (mkLatestResult (c_task c) (c_features c) prediction
            (Some (prediction_id r)) (c_lifestyle c) (c_symptoms c)) ∧
  onGetAdvice settled =
    Some (mkLatestResult (task st) (features st) prediction
            (Some (prediction_id r)) (lifestyle st) (symptoms st)) ∧
  (onGetAdvice settled = latest_result settled ↔
   task st = c_task c ∧ features st = c_features c ∧
   lifestyle st = c_lifestyle c ∧ symptoms st = c_symptoms c) ∧
  (∀ st0, haveIngest st0 = true →
     onGetAdvice (onAnalyze st0 (inl r)) = latest_result (onAnalyze st0 (inl r))).
Proof.
  intros settled prediction. subst settled prediction.
  unfold onAnalyze_settle, onGetAdvice, havePred. simpl.
  split; [done|]. split; [done|]. split.
  - split.
    + intros [= -> -> -> ->]. done.
    + intros (-> & -> & -> & ->). done.
  - intros st0 Hi. unfold onAnalyze. by rewrite Hi.
Qed.

Example edit_while_awaiting_prediction :
  let clicked := onAnalyze_click (onSubmit (fresh heart) (inl ingest_complete)) in
  let edited := onChangeFeature clicked.1 "chol" (JStr "300") in
  let settled :=
    onAnalyze_settle (closure_of (onSubmit (fresh heart) (inl ingest_complete)))
      (inl sample_prediction) edited in
  lr_features <$> latest_result settled = Some {[ "chol" := JNum 260; "thalach" := JNum 150 ]} ∧
  lr_features <$> onGetAdvice settled
    = Some {[ "chol" := JStr "300"; "thalach" := JNum 150 ]}.
Proof. vm_compute. done. Qed.

(** The value of a numeral made of decimal digits only. *)
Fixpoint digits_value (s : string) (acc : Z) : option Z :=
  match s with
  | EmptyString => Some acc
  | String c s' =>
      let d := (Z.of_nat (Ascii.nat_of_ascii c) - 48)%Z in
      if bool_decide (0 ≤ d ≤ 9)%Z then digits_value s' (10 * acc + d)%Z else None
  end.

(** A stand-in for [Number] that also reads numerals of decimal digits (below
    2^53, where the conversion is exact), as typed into an input. *)
Definition Number_typed (v : JsValue) : float :=
  match v with
  | JStr s =>
      if bool_decide (s = "") then 0%float
      else match digits_value s 0 with
           | Some z => PrimFloat.of_uint63 (Uint63.of_Z z)
           | None => nan
           end
  | _ => Number_sample v
  end.

Example Number_typed_150 : Number_typed (JStr "150") = 150%float.
Proof. vm_compute. reflexivity. Qed.





Example session_stores_heart_prediction :
  lr_task <$>
    latest_result
      (run Number_typed (initial None)
         [ChooseFile (Some (mkFile "report.pdf" "application/pdf"));
          SelectTask general;
          Submit (inl ingest_thalach_missing);
          SelectTask heart;
          ChangeFeature "thalach" (JStr "150");
          ClickAnalyze (inl sample_prediction)]) = Some heart.
Proof. vm_compute. reflexivity. Qed.

End UploadSession.

(** ** The upload page with requests in flight (C6) *)

Module UploadLive.
Import Api Upload PushLoop UploadGroups UploadAnalyze UploadFlow.

(** [onSubmit] and [onAnalyze] are their two halves with nothing in
    between. *)
Lemma onSubmit_uninterrupted (st : State) (ingest : IngestResponse + string) :
  onSubmit st ingest =
  match onSubmit_click st with
  | (st', Some c) => onSubmit_settle c ingest st'
  | (st', None) => st'
  end.
Proof.
  unfold onSubmit, onSubmit_click. destruct (file st) eqn:Hf; [|done].
  destruct ingest; simpl; by rewrite ?Hf.
Qed.

Lemma onAnalyze_uninterrupted (st : State) (pred : PredictResponse + string) :
  onAnalyze st pred =
  match onAnalyze_click st with
  | (st', Some c) => onAnalyze_settle c pred st'
  | (st', None) => st'
  end.
Proof.
  unfold onAnalyze, onAnalyze_click. destruct (haveIngest st); [|done].
  by destruct pred.
Qed.

Lemma js_in_insert (f : gmap string JsValue) (k k' : string) (v : JsValue) :
  js_in f k' = true → js_in (<[k := v]> f) k' = true.
Proof.
  unfold js_in. rewrite !orb_true_iff, !bool_decide_eq_true.
  intros [[x Hx] | Hp]; [left | by right].
  rewrite lookup_insert. case_decide; by eexists.
Qed.

Lemma js_in_placeholders (f : gmap string JsValue) (l : list string) (k : string) :
  k ∈ l → js_in (foldl placeholder f l) k = true.
Proof.
  intros Hk. unfold js_in. rewrite placeholder_fold_lookup. unfold fillable.
  destruct (f !! k); [by rewrite bool_decide_eq_true_2 by by eexists|].
  rewrite (bool_decide_eq_true_2 (k ∈ l)) by done.
  destruct (bool_decide (k ∈ Object_prototype_members)); simpl; [done|].
  by rewrite ?bool_decide_eq_true_2 by by eexists.
Qed.

Section Live.
Variable Number : JsValue → float.

(** What holds of the page at every moment. *)
Definition sound (p : Page) : Prop :=
  (havePred (ui p) = true → haveIngest (ui p) = true) ∧
  (∀ k, k ∈ missing (ui p) → js_in (features (ui p)) k = true) ∧
  (loading (ui p) = true ↔ is_Some (pending p)) ∧
  (∀ c, pending p = Some (AwaitingPrediction c) →
        c_task c ≠ general ∧ haveIngest (ui p) = true) ∧
  (∀ c, pending p = Some (AwaitingIngest c) → result (ui p) = None).

Lemma opened_sound stored : sound (opened stored).
Proof.
  split; [done|]. split; [by intros k ?%elem_of_nil|].
  split; [|done]. split; [done|]. by intros [? ?].
Qed.

Lemma act_sound (p : Page) (a : Action) : sound p → sound (act Number p a).
Proof.
  intros Hs. pose proof Hs as (Hpred & Hmiss & Hload & Hpp & Hpi).
  destruct a; simpl.
  - done.
  - unfold onChooseFile. destruct f as [picked|]; [|done]. by destruct (_ && _).
  - destruct (loading (ui p)) eqn:Hl; [exact Hs|].
    unfold onSubmit_click. destruct (file (ui p)); simpl; [|done].
    split; [done|]. split; [done|]. split; [by split; [eexists|]|]. by split.
  - destruct (pending p) as [[c|c]|] eqn:Hp; [|exact Hs..].
    destruct ingest as [r|msg]; simpl.
    + split; [intros H; unfold havePred in H; simpl in H;
              by rewrite (Hpi c eq_refl) in H|].
      split; [intros k Hk; by apply js_in_placeholders|].
      split; [by split; [|intros [? ?]]|]. by split.
    + split; [done|]. split; [done|].
      split; [by split; [|intros [? ?]]|]. by split.
  - destruct (analyzeAvailable Number (ui p)) eqn:Ha; [|exact Hs].
    apply analyzeAvailable_true in Ha as [Hc Hl].
    apply canAnalyze_true in Hc as (Hi & _ & Hg).
    unfold onAnalyze_click. rewrite Hi. simpl.
    split; [done|]. split; [done|]. split; [by split; [eexists|]|].
    split; [|done]. by intros c [= <-].
  - destruct (pending p) as [[c|c]|] eqn:Hp; [exact Hs| |exact Hs].
    destruct (Hpp c eq_refl) as [Hg Hi].
    destruct pred as [r|msg]; simpl;
      (split; [done|]; split; [done|];
       split; [by split; [|intros [? ?]]|]; by split).
  - split; [done|]. split; [|done].
    intros k' Hk'. simpl. by apply js_in_insert, Hmiss.
  - done.
  - done.
Qed.

Lemma play_sound (p : Page) (actions : list Action) :
  sound p → sound (play Number p actions).
Proof.
  unfold play. revert p.
  induction actions as [|a actions IH]; intros p Hs; simpl; [done|].
  apply IH. by apply act_sound.
Qed.

(** A prediction gets on display only by the answer that brings it. *)
Lemma act_result (p : Page) (a : Action) (r : PredictResponse) :
  result (ui (act Number p a)) = Some r →
  result (ui p) = Some r ∨ a = PredictionAnswer (inl r).
Proof.
  destruct a; simpl; try (by left).
  - unfold onChooseFile. destruct f as [picked|]; [|by left].
    destruct (_ && _); by left.
  - destruct (loading (ui p)); [by left|].
    unfold onSubmit_click. by destruct (file (ui p)); [|left].
  - destruct (pending p) as [[c|c]|]; try (by left).
    destruct ingest; by left.
  - destruct (analyzeAvailable Number (ui p)); [|by left].
    unfold onAnalyze_click. destruct (negb _); by left.
  - destruct (pending p) as [[c|c]|]; try (by left).
    destruct pred as [r'|msg]; simpl; [|by left]. intros [= ->]. by right.
Qed.

Lemma play_result (p : Page) (actions : list Action) (r : PredictResponse) :
  result (ui (play Number p actions)) = Some r →
  result (ui p) = Some r ∨ PredictionAnswer (inl r) ∈ actions.
Proof.
  unfold play. revert p.
  induction actions as [|a actions IH]; intros p; simpl; [by left|].
  intros [H | H]%IH.
  - apply act_result in H as [H | ->]; [by left|]. right. apply elem_of_cons. by left.
  - right. apply elem_of_cons. by right.
Qed.

(** Where a stored result comes from: it was there, or an upload in general
    mode wrote it without a prediction, or the answer to a prediction
    request for another task wrote it with that answer's prediction. *)
Definition written_by (actions : list Action) (lr : LatestResult) : Prop :=
  (lr_task lr = general ∧ lr_prediction lr = None ∧ lr_prediction_id lr = None) ∨
  (lr_task lr ≠ general ∧
   ∃ r, PredictionAnswer (inl r) ∈ actions ∧
        lr_prediction lr =
          Some (mkPrediction (label r) (probability r) (health_score r)) ∧
        lr_prediction_id lr = Some (prediction_id r)).

Lemma act_latest_result (p : Page) (a : Action) (lr : LatestResult) :
  sound p →
  latest_result (ui (act Number p a)) = Some lr →
  latest_result (ui p) = Some lr ∨ written_by [a] lr.
Proof.
  intros (_ & _ & _ & Hpp & _). destruct a; simpl; try (by left).
  - unfold onChooseFile. destruct f as [picked|]; [|by left].
    destruct (_ && _); by left.
  - destruct (loading (ui p)); [by left|].
    unfold onSubmit_click. by destruct (file (ui p)); left.
  - destruct (pending p) as [[c|c]|]; try (by left).
    destruct ingest as [r|msg]; simpl; [|by left].
    case_bool_decide as Hg; [|by left].
    intros [= <-]. right. left. simpl. by rewrite Hg.
  - destruct (analyzeAvailable Number (ui p)); [|by left].
    unfold onAnalyze_click. destruct (negb _); by left.
  - destruct (pending p) as [[c|c]|] eqn:Hp; try (by left).
    destruct (Hpp c eq_refl) as [Hg _].
    destruct pred as [r|msg]; simpl; [|by left].
    intros [= <-]. right. right. simpl. split; [done|].
    exists r. split; [|done]. by apply list_elem_of_singleton.
Qed.

Lemma written_by_mono (actions actions' : list Action) (lr : LatestResult) :
  (∀ a, a ∈ actions → a ∈ actions') → written_by actions lr → written_by actions' lr.
Proof.
  intros Hsub [H | (Hg & r & Hr & H)]; [by left|]. right. split; [done|].
  exists r. split; [by apply Hsub | done].
Qed.

Lemma play_latest_result (p : Page) (actions : list Action) (lr : LatestResult) :
  sound p →
  latest_result (ui (play Number p actions)) = Some lr →
  latest_result (ui p) = Some lr ∨ written_by actions lr.
Proof.
  unfold play. revert p.
  induction actions as [|a actions IH]; intros p Hs; simpl; [by left|].
  intros [H | H]%IH; [|right|by apply act_sound].
  - apply act_latest_result in H as [H | H]; [by left| |done]. right.
    eapply written_by_mono; [|done].
    intros a' ->%list_elem_of_singleton. apply elem_of_cons. by left.
  - eapply written_by_mono; [|done]. intros a' Ha'. apply elem_of_cons. by right.
Qed.

End Live.

(** C6: in general mode the analysis cannot be started and the upload
    stores a result whose prediction and prediction id are [null]; for
    every other task the upload leaves the stored result alone and a
    successful analysis stores the model's label, probability and health
    score.  Without the model's answer there is no score: an analysis that
    fails, or is not started for want of an ingested report, or has not been
    answered yet, leaves the displayed prediction and the stored result as
    they were.  Over every session of the page, with requests in flight
    while the inputs stay live: a prediction is never requested for the
    general task, the prediction on display is one the prediction endpoint
    answered with, and a stored result is the one found at the start, or
    one without a prediction for the general task, or one for another task
    with the label, probability and health score of an answer of the
    prediction endpoint. *)
Theorem general_mode_has_no_score (Number : JsValue → float) (st : State) :
  (task st = general →
     canAnalyze Number st = false ∧
     analyzeAvailable Number st = false ∧
     actionButton Number st ≠ Some (AnalyzeButton false) ∧
     (∀ r, file st ≠ None →
        ∃ lr, latest_result (onSubmit st (inl r)) = Some lr ∧
              lr_task lr = general ∧
              lr_prediction lr = None ∧ lr_prediction_id lr = None)) ∧
  (task st ≠ general →
     (∀ r, latest_result (onSubmit st r) = latest_result st) ∧
     (∀ r, haveIngest st = true →
        ∃ lr, latest_result (onAnalyze st (inl r)) = Some lr ∧
              lr_task lr = task st ∧
              lr_prediction lr =
                Some (mkPrediction (label r) (probability r) (health_score r)) ∧
              lr_prediction_id lr = Some (prediction_id r))) ∧
  (∀ msg, result (onAnalyze st (inr msg)) = result st ∧
          latest_result (onAnalyze st (inr msg)) = latest_result st) ∧
  (haveIngest st = false → ∀ pred, onAnalyze st pred = st) ∧
  (result (onAnalyze_click st).1 = result st ∧
   latest_result (onAnalyze_click st).1 = latest_result st) ∧
  (∀ c msg, result (onAnalyze_settle c (inr msg) st) = result st ∧
            latest_result (onAnalyze_settle c (inr msg) st) = latest_result st) ∧
  (∀ ingest, result (onSubmit st ingest) = None ∨ onSubmit st ingest = st) ∧
  (∀ stored actions,
     let p := play Number (opened stored) actions in
     (∀ c, pending p = Some (AwaitingPrediction c) → c_task c ≠ general) ∧
     (∀ r, result (ui p) = Some r → PredictionAnswer (inl r) ∈ actions) ∧
     (∀ lr, latest_result (ui p) = Some lr →
        stored = Some lr ∨
        (lr_task lr = general ∧ lr_prediction lr = None ∧
         lr_prediction_id lr = None) ∨
        (lr_task lr ≠ general ∧
         ∃ r, PredictionAnswer (inl r) ∈ actions ∧
              lr_prediction lr =
                Some (mkPrediction (label r) (probability r) (health_score r)) ∧
              lr_prediction_id lr = Some (prediction_id r)))).
Proof.
  split; [|split; [|split; [|split; [|split; [|split; [|split]]]]]].
  - intros Hg.
    assert (Hc : canAnalyze Number st = false).
    { unfold canAnalyze. rewrite Hg. simpl. by rewrite andb_false_r. }
    assert (Hoff : analyzeAvailable Number st = false).
    { destruct (analyzeAvailable Number st) eqn:E; [|done].
      apply analyzeAvailable_true in E as [E _]. congruence. }
    split; [done|]. split; [done|]. split.
    + intros Hb. unfold analyzeAvailable in Hoff. by rewrite Hb in Hoff.
    + intros r Hfile. unfold onSubmit. destruct (file st); [|done].
      simpl. rewrite Hg. simpl. by eexists.
  - intros Hg. split.
    + intros r. unfold onSubmit. destruct (file st); [|done].
      destruct r; simpl; [|done]. by rewrite bool_decide_eq_false_2.
    + intros r Hi. unfold onAnalyze. rewrite Hi. simpl. by eexists.
  - intros msg. unfold onAnalyze. by destruct (haveIngest st).
  - intros Hi pred. unfold onAnalyze. by rewrite Hi.
  - unfold onAnalyze_click. by destruct (haveIngest st).
  - done.
  - intros ingest. unfold onSubmit. destruct (file st); [left|by right].
    by destruct ingest.
  - intros stored actions p.
    pose proof (play_sound Number _ actions (opened_sound stored))
      as (_ & _ & _ & Hpp & _).
    split; [intros c Hc; by apply (Hpp c)|]. split.
    + intros r Hr. by apply play_result in Hr as [Hr | Hr].
    + intros lr Hlr.
      apply play_latest_result in Hlr as [Hlr | [H | H]];
        [by left | by right; left | by right; right | apply opened_sound].
Qed.

(** X6: whatever the user does on the upload page (pick a task or a file,
    upload, analyze, edit a field, a lifestyle entry or a symptom), with the
    server answering at any later moment while the inputs stay live: a
    prediction is on display only for an ingested report; every missing
    field is a member of the form, own or inherited ([k in features]); the
    page shows as loading exactly while a request is in flight; a prediction
    is only awaited for a task other than the general one and an ingested
    report; and no prediction is on display while an upload is awaited. *)
Theorem session_consistent (Number : JsValue → float)
    (stored : option LatestResult) (actions : list Action) :
  sound (play Number (opened stored) actions).
Proof. apply play_sound, opened_sound. Qed.

(** A session in which the task is switched while the prediction is
    awaited: the result is stored for the task of the click. *)
Example switch_task_while_awaiting :
  let p :=
    play UploadSession.Number_typed (opened None)
      [PickFile (Some (mkFile "report.pdf" "application/pdf"));
       ClickUpload;
       IngestAnswer (inl ingest_complete);
       ClickAnalyzeButton;
       PickTask general;
       PredictionAnswer (inl sample_prediction)] in
  lr_task <$> latest_result (ui p) = Some heart ∧
  task (ui p) = general ∧ pending p = None ∧ loading (ui p) = false.
Proof. vm_compute. done. Qed.

(** With nothing between a click and its answer, the session is the one of
    [Upload.run]. *)
Lemma run_is_uninterrupted_play (Number : JsValue → float) (p : Page) :
  loading (ui p) = false → pending p = None →
  (∀ ingest, ui (play Number p [ClickUpload; IngestAnswer ingest])
             = step Number (ui p) (Submit ingest)) ∧
  (∀ pred, ui (play Number p [ClickAnalyzeButton; PredictionAnswer pred])
           = step Number (ui p) (ClickAnalyze pred)).
Proof.
  intros Hl Hp. split.
  - intros ingest. simpl. rewrite Hl, onSubmit_uninterrupted.
    unfold onSubmit_click. destruct (file (ui p)); simpl; [done|].
    by rewrite Hp.
  - intros pred. simpl.
    destruct (analyzeAvailable Number (ui p)) eqn:Ha; simpl.
    + rewrite onAnalyze_uninterrupted.
      apply analyzeAvailable_true in Ha as [Hc _].
      apply canAnalyze_true in Hc as (Hi & _).
      unfold onAnalyze_click. by rewrite Hi.
    + by rewrite Hp.
Qed.

End UploadLive.

(** ** The upload page with the review step: confirmation before analysis *)

Module ReviewFlow.
Import Api UploadReview.

(** A page of this copy with a chosen PDF, before the upload. *)
Definition fresh (t : Task) (require : bool) : State :=
  mkState t (Some "report.pdf") false None None None ∅ [] ∅ "" [] false
    require false ∅ ∅ None.

(** The text the page shows when the confirmation is still due. *)
Definition review_first : string :=
  "Please review and confirm the extracted values before analysis.".

(** X8: while "Require value confirmation" is on and the extracted values
    of an ingested report are not confirmed, a click on the analyze button
    sends nothing to the prediction endpoint: it sets the error text
    "Please review and confirm the extracted values before analysis.",
    opens the extracted-values panel, also when the user had closed it, and
    leaves every other cell, the displayed prediction and the stored result
    as they were.  Confirming the values lets the request through, with the
    task and the features of the form and the report id; "Review Again"
    withdraws the confirmation.  Every successful upload made with the
    checkbox on starts out unconfirmed, with the panel open. *)
Theorem analysis_waits_for_confirmation (st : State)
    (pred : PredictResponse + string) :
  haveIngest st = true → requireConfirmation st = true →
  confirmedExtracted st = false →
  onAnalyze st pred =
    (mkState (task st) (file st) (loading st) (result st) (Some review_first)
       (reportId st) (features st) (missing st) (extractedMeta st)
       (rawText st) (outOfRange st) true
       (requireConfirmation st) (confirmedExtracted st)
       (lifestyle st) (symptoms st) (latest_result st),
     None) ∧
  (∀ open,
     (onAnalyze (onToggleExtractedValues st open) pred).2 = None ∧
     showExtractedValues (onAnalyze (onToggleExtractedValues st open) pred).1 = true ∧
     error (onAnalyze (onToggleExtractedValues st open) pred).1 = Some review_first) ∧
  (onAnalyze (confirmExtractedValues st) pred).2 =
    Some (mkPredictRequest (task st) (features st) (reportId st)) ∧
  (onAnalyze (reviewExtractedValues (confirmExtractedValues st)) pred).2 = None ∧
  (∀ st0 r, file st0 ≠ None → requireConfirmation st0 = true →
     confirmedExtracted (onSubmit st0 (inl r)) = false ∧
     showExtractedValues (onSubmit st0 (inl r)) = true ∧
     requireConfirmation (onSubmit st0 (inl r)) = true ∧
     reportId (onSubmit st0 (inl r)) = Some (report_id r)).
Proof.
  intros Hi Hrc Hce. split; [|split; [|split; [|split]]].
  - unfold onAnalyze. by rewrite Hi, Hrc, Hce.
  - intros open. unfold onAnalyze.
    change (haveIngest (onToggleExtractedValues st open)) with (haveIngest st).
    rewrite Hi. simpl. by rewrite Hrc, Hce.
  - unfold onAnalyze.
    change (haveIngest (confirmExtractedValues st)) with (haveIngest st).
    rewrite Hi. simpl. rewrite andb_false_r. by destruct pred.
  - unfold onAnalyze.
    change (haveIngest (reviewExtractedValues (confirmExtractedValues st)))
      with (haveIngest st).
    rewrite Hi. simpl. by rewrite Hrc.
  - intros st0 r Hfile Hreq. unfold onSubmit. destruct (file st0); [|done].
    simpl. by rewrite Hreq.
Qed.

(** A heart report with nothing missing, uploaded with the confirmation
    required, after the user closed the extracted-values panel: the analyze
    button is enabled. *)
Definition panel_closed : State :=
  onToggleExtractedValues
    (onSubmit (fresh heart true) (inl UploadFlow.ingest_complete)) false.

Example panel_closed_button_enabled :
  analyzeAvailable UploadAnalyze.Number_sample panel_closed = true ∧
  showExtractedValues panel_closed = false ∧ error panel_closed = None.
Proof. vm_compute. done. Qed.

(** X8 on that page: the click reopens the panel and asks for the review. *)
Lemma analysis_waits_for_confirmation_witness :
  (onAnalyze panel_closed (inl UploadAnalyze.sample_prediction)).2 = None ∧
  showExtractedValues (onAnalyze panel_closed (inl UploadAnalyze.sample_prediction)).1
    = true ∧
  error (onAnalyze panel_closed (inl UploadAnalyze.sample_prediction)).1
    = Some review_first ∧
  result (onAnalyze panel_closed (inl UploadAnalyze.sample_prediction)).1 = None.
Proof.
  destruct (analysis_waits_for_confirmation panel_closed
              (inl UploadAnalyze.sample_prediction)) as [H _];
    [vm_compute; reflexivity..|].
  rewrite H. simpl. done.
Defined.

End ReviewFlow.

(** ** The history page: the "Analyze" button of the latest assessment *)

Module HistoryAnalyze.
Import HistoryPage.

(** The task the handler works with: ['general'] when none is recorded. *)
Definition effective_task (latest : HealthData) : string :=
  if bool_decide (hd_task latest = "") then "general" else hd_task latest.

(** X9: the "Analyze" button asks for a prediction exactly when the latest
    assessment has a task other than the general one and no prediction yet;
    it always hands the triage page an assessment with the task, features,
    lifestyle and symptoms of the latest one; and it writes to the storage
    only after a successful prediction, namely the assessment it navigates
    with, which then carries the new prediction. *)
Theorem analyze_latest (latest : HealthData) (pred : Api.PredictResponse + string) :
  let out := onAnalyzeLatest latest pred in
  (is_Some (requested out) ↔
   effective_task latest ≠ "general" ∧ hd_prediction latest = None) ∧
  (hd_task (reportData out) = hd_task latest ∧
   hd_features (reportData out) = hd_features latest ∧
   hd_lifestyle (reportData out) = hd_lifestyle latest ∧
   hd_symptoms (reportData out) = hd_symptoms latest) ∧
  (∀ written, stored out = Some written →
     written = reportData out ∧ is_Some (requested out) ∧
     ∃ r, pred = inl r ∧
          hd_prediction written =
            Some (Upload.mkPrediction (Api.label r) (Api.probability r)
                    (Api.health_score r)) ∧
          hd_prediction_id written = Some (Api.prediction_id r)) ∧
  (is_Some (hd_prediction latest) → reportData out = latest).
Proof.
  intros out. subst out. unfold onAnalyzeLatest, effective_task.
  destruct (bool_decide (_ = "general")) eqn:Hg;
    [apply bool_decide_eq_true in Hg | apply bool_decide_eq_false in Hg];
    destruct (hd_prediction latest) as [p|] eqn:Hp; simpl;
    try (rewrite bool_decide_eq_true_2 by by eexists);
    try (rewrite bool_decide_eq_false_2 by by intros [? ?]); simpl;
    try destruct pred as [r|msg]; simpl;
    unfold is_Some; split_and!; try done; naive_solver.
Qed.

Example analyze_latest_general :
  requested
    (onAnalyzeLatest (mkHealthData "general" ∅ None None ∅ ∅)
       (inl UploadAnalyze.sample_prediction)) = None.
Proof. vm_compute. reflexivity. Qed.

Example analyze_latest_heart :
  hd_prediction <$>
    stored (onAnalyzeLatest (mkHealthData "heart" ∅ None None ∅ ∅)
              (inl UploadAnalyze.sample_prediction))
  = Some (Some (Upload.mkPrediction 1 0.8 18)).
Proof. vm_compute. reflexivity. Qed.

End HistoryAnalyze.

(** ** The chatbot's key metrics *)

Module KeyMetrics.
Import ChatBot.

Section Metrics.
Variable String_of : JsValue → string.
Variable Number : JsValue → float.

Lemma push_metric_le features k label unit metrics n :
  length metrics ≤ n →
  length (push_metric String_of features k label unit metrics) ≤ S n.
Proof.
  intros H. unfold push_metric. destruct (js_get features k);
    rewrite ?length_app; simpl; lia.
Qed.

(** X10: the chatbot lists key metrics only for the heart, diabetes and
    parkinsons tasks, at most four of them (five for diabetes), and none at
    all when the features are empty: the greeting of the general task and of
    an empty report carries no findings. *)
Theorem key_metrics_bounds (task : string) (features : gmap string JsValue) :
  (task ≠ "heart" → task ≠ "diabetes" → task ≠ "parkinsons" →
   getKeyMetrics String_of Number task features = []) ∧
  length (getKeyMetrics String_of Number task features)
    ≤ (if bool_decide (task = "diabetes") then 5 else 4) ∧
  getKeyMetrics String_of Number task ∅ = [].
Proof.
  split; [|split].
  - intros Hh Hd Hp. unfold getKeyMetrics.
    by rewrite !bool_decide_eq_false_2 by done.
  - unfold getKeyMetrics.
    assert (Hlen : ∀ (m : list string) n, length m ≤ n →
              length (match js_get features "Pregnancies" with
                      | JUndefined => m
                      | v => if js_lt 0 (Number v)
                             then m ++ ["pregnancies" +:+ ": " +:+ String_of v +:+ ""]
                             else m
                      end) ≤ S n).
    { intros m n Hm. destruct (js_get features "Pregnancies"); try lia; simpl;
        match goal with |- context [js_lt ?a ?b] => destruct (js_lt a b) end;
        rewrite ?length_app; simpl; lia. }
    destruct (decide (task = "heart")) as [-> | Hh].
    { rewrite (bool_decide_eq_true_2 ("heart" = "heart")) by done.
      rewrite (bool_decide_eq_false_2 ("heart" = "diabetes")) by done.
      repeat apply push_metric_le. simpl; lia. }
    rewrite (bool_decide_eq_false_2 (task = "heart")) by done.
    destruct (decide (task = "diabetes")) as [-> | Hd].
    { rewrite (bool_decide_eq_true_2 ("diabetes" = "diabetes")) by done.
      apply Hlen. repeat apply push_metric_le. simpl; lia. }
    rewrite (bool_decide_eq_false_2 (task = "diabetes")) by done.
    destruct (decide (task = "parkinsons")) as [-> | Hp].
    { rewrite (bool_decide_eq_true_2 ("parkinsons" = "parkinsons")) by done.
      repeat apply push_metric_le. simpl; lia. }
    rewrite (bool_decide_eq_false_2 (task = "parkinsons")) by done. simpl; lia.
  - unfold getKeyMetrics.
    repeat case_bool_decide; try done; vm_compute; reflexivity.
Qed.

End Metrics.

Example key_metrics_heart :
  length (getKeyMetrics (λ _, "260") UploadAnalyze.Number_sample "heart"
            {[ "chol" := JNum 260 ]}) = 1.
Proof. vm_compute. reflexivity. Qed.

End KeyMetrics.

(** ** Routing: who gets to see a protected page *)

Module Routing.
Import App.

(** X11: a protected page (upload, manual, triage, history) is shown only
    when authentication is disabled or the user is loaded and signed in; a
    loaded, signed-out user is sent to the sign-in area from the root and
    from every protected route; and redirects never chain: the place a
    redirect leads to does not redirect again. *)
Theorem protected_pages (a : Auth) (l : Location) :
  (∀ p, App a l = Show p →
        DISABLE_AUTH a = true ∨ (isLoaded a = true ∧ isSignedIn a = true)) ∧
  (DISABLE_AUTH a = false → isLoaded a = true → isSignedIn a = false →
   l ≠ NoRoute → App a (follow a l) = SignInArea) ∧
  (∀ to, App a (follow a l) ≠ Navigate to).
Proof.
  destruct a as [d ld si]. unfold follow.
  destruct l, d, ld, si; simpl; split_and!; try done; intros; simplify_eq; auto.
Qed.

Example signed_in_root_shows_upload :
  App (mkAuth false true true) (follow (mkAuth false true true) RouteRoot)
  = Show UploadPage.
Proof. reflexivity. Qed.

End Routing.

(** ** The manual page never predicts for the general task *)

Module ManualFacts.
Import Api Manual.

(** What every state of the manual page satisfies: the task is one of the
    three options, and what the page stored belongs to such a task. *)
Definition sound (st : State) : Prop :=
  task st ≠ general ∧
  ∀ sr, latest_result st = Some sr → sr_task sr ≠ general.

Lemma option_value_not_general o : option_value o ≠ general.
Proof. by destruct o. Qed.

Lemma step_sound st e : sound st → sound (step st e).
Proof.
  intros [Ht Hs]. destruct e; simpl.
  - split; [apply option_value_not_general | done].
  - unfold onSchema. by destruct res.
  - done.
  - unfold onPredict. destruct pred as [r|msg]; simpl; [|done].
    split; [done|]. by intros sr [= <-].
Qed.

(** X12: on the manual page, whatever task is selected, whatever is typed
    and whatever the server answers, the task is never the general one, so
    every prediction request is for heart, diabetes or parkinsons, without a
    report id, and with the features on the form; and a schema answer always
    empties the form. *)
Theorem manual_never_general (events : list Event) :
  sound (run initial events) ∧
  (∀ pred,
     let request := (onPredict (run initial events) pred).2 in
     UploadReview.req_task request = task (run initial events) ∧
     UploadReview.req_task request ≠ general ∧
     UploadReview.req_features request = features (run initial events) ∧
     UploadReview.req_report_id request = None) ∧
  (∀ res, features (onSchema (run initial events) (Some res)) = ∅).
Proof.
  assert (Hsound : sound (run initial events)).
  { unfold run. assert (Hi : sound initial) by done. revert Hi.
    generalize initial as st.
    induction events as [|e events IH]; intros st Hs; simpl; [done|].
    apply IH. by apply step_sound. }
  split; [done|]. split; [|done].
  intros pred request. subst request. destruct Hsound as [Ht _].
  unfold onPredict. by destruct pred.
Qed.

End ManualFacts.

(** ** What the triage page stores of a conversation *)

Module TriageHistory.
Import Chat TriagePage.

Lemma slice_last_fmap {A B : Type} (f : A → B) (n : nat) (l : list A) :
  f <$> slice_last n l = slice_last n (f <$> l).
Proof. unfold slice_last. by rewrite fmap_drop, length_fmap. Qed.

(** Who said what, without the time. *)
Definition said (m : Message) : Role * string := (role m, content m).

Section Page.
Variable formatMedicalResponse : string → string.
Variable trim : string → string.

(** X13: a question asked from the render on screen appends the user
    message at once.  If the answer (reply or error) then arrives while the
    conversation on screen is still the one of the click followed by that
    user message (no other question was asked in between, no stored history
    was loaded, no new report was detected), the page shows the conversation
    followed by the question and the answer, and the history stored under
    the triage key is the last ten of the messages on screen: identical
    after a reply, and identical in who said what after a failure (the
    stored copy of the question carries a later time).  The other two
    storage entries are not touched. *)
Theorem ask_stores_what_is_shown (st : State) (q : string) (now : Z)
    (report : ReportData) :
  trim q ≠ "" →
  let userMessage := mkMessage None user q (DateAt now) in
  let c := mkAskClosure (messages st) q userMessage in
  ask_click trim (Some report) (messages st) q now st =
    (mkState (latest st) (messages st ++ [userMessage]) true None (model st),
     Some c) ∧
  ∀ (st' : State) (ls : LocalStorage) (later later' : Z) (r : TriageReply + string),
    messages st' = messages st ++ [userMessage] →
    let out := ask_answer formatMedicalResponse c later later' r st' ls in
    length (messages out.1) = length (messages st) + 2 ∧
    (∃ stored, ls_triage out.2 = Some stored ∧
       said <$> stored = said <$> slice_last 10 (messages out.1) ∧
       (∀ reply, r = inl reply → stored = slice_last 10 (messages out.1))) ∧
    ls_floating out.2 = ls_floating ls ∧
    ls_latest_result out.2 = ls_latest_result ls.
Proof.
  intros Hq userMessage c. split.
  - unfold ask_click. by rewrite bool_decide_eq_false_2.
  - intros st' ls later later' r Hm out. subst out.
    destruct r as [reply|detail]; simpl; rewrite Hm, <- app_assoc; simpl.
    + split; [rewrite length_app; simpl; lia|]. split; [|done].
      eexists. split; [done|]. by split.
    + split; [rewrite length_app; simpl; lia|]. split; [|done].
      eexists. split; [done|]. split; [|done].
      by rewrite !slice_last_fmap, !fmap_app.
Qed.

End Page.

(** X13 on the first question about a heart report. *)
Lemma ask_stores_what_is_shown_witness :
  let st := mkState (Some ChatHistory.report) [] false None "" in
  let q := "What does my score mean?" in
  let userMessage := mkMessage None user q (DateAt 0) in
  let out :=
    ask_answer id (mkAskClosure [] q userMessage) 1 2 (inl ChatHistory.reply)
      (ask_click id (Some ChatHistory.report) [] q 0 st).1
      (mkLocalStorage None None None) in
  length (messages out.1) = 2 ∧
  ls_triage out.2 = Some (slice_last 10 (messages out.1)).
Proof.
  intros st q userMessage out.
  destruct (ask_stores_what_is_shown id id st q 0 ChatHistory.report) as [Hc Ha];
    [discriminate|].
  destruct (Ha (ask_click id (Some ChatHistory.report) [] q 0 st).1
              (mkLocalStorage None None None) 1%Z 2%Z (inl ChatHistory.reply))
    as (Hlen & (stored & Hs & _ & Heq) & _); [reflexivity|].
  split; [exact Hlen|].
  exact (eq_trans Hs (f_equal Some (Heq ChatHistory.reply eq_refl))).
Defined.

(** Two questions in flight at once: the second is asked before the first
    is answered.  After both replies the screen shows six messages in the
    order they arrived, while the stored history is what the second
    question's closure had (which lacks the first reply) followed by the
    second question and its reply. *)
Example two_questions_in_flight :
  let w :=
    ChatHistory.play ChatHistory.start
      [Session.PageAsk (Some ChatHistory.report) [] "a" 0;
       Session.PageAsk (Some ChatHistory.report)
         [mkMessage None user "a" (DateAt 0)] "b" 1;
       Session.PageAnswer 0 2 3 (inl ChatHistory.reply);
       Session.PageAnswer 0 4 5 (inl ChatHistory.reply)] in
  (role <$> messages (Session.page w)) = [user; user; ai; ai] ∧
  (role <$> default [] (ls_triage (Session.storage w))) = [user; user; ai].
Proof. vm_compute. done. Qed.

End TriageHistory.

(** ** The two chat histories do not touch each other *)

Module StorageKeys.
Import Chat Session.

(** The events of the triage page, as opposed to those of the chatbot. *)
Definition of_page (e : Event) : bool :=
  match e with
  | PageLocation _ | PageCheckForNewReport _ | PageAsk _ _ _ _
  | PageAnswer _ _ _ _ | PageNoteDone | PageInitialLoad _ _
  | PageStorageChange => true
  | BotInput _ | BotSend _ _ _ | BotAnswer _ _ _ | BotNewReport => false
  end.

(** The stored report after one event. *)
Lemma latest_result_step (toFixed1 : float → string)
    (formatMedicalResponse trim : string → string) (id_of : Z → string)
    (same_json : ReportData → ReportData → bool) (w : World) (e : Event) :
  ls_latest_result
    (storage (step toFixed1 formatMedicalResponse trim id_of same_json w e)) =
  match e with
  | PageLocation (Some d) => Some d
  | _ => ls_latest_result (storage w)
  end.
Proof.
  rewrite ChatHistory.storage_step. destruct e; try done.
  - unfold TriagePage.onLocation. destruct navigationData as [d|]; [done|].
    destruct (ls_latest_result (storage w)) eqn:E; simpl; by rewrite ?E.
  - unfold TriagePage.checkForNewReport.
    destruct (ls_latest_result (storage w)) eqn:E; simpl; [|by rewrite E].
    destruct latest_seen as [l|]; [destruct (negb _)|]; simpl; by rewrite ?E.
  - destruct (asks w !! n); [|done]. by rewrite ChatHistory.ask_answer_storage.
  - destruct (sending w); [|done].
    rewrite ChatHistory.sendMessage_answer_storage. by destruct response.
Qed.

(** X14: the triage page and the floating chatbot keep separate histories.
    Of the three storage entries the two components use, no event of the
    triage page changes the chatbot's history; no event of the chatbot
    changes the triage page's history or the stored report; and the stored
    report is changed by one event only, the triage page's navigation
    effect, which writes the report data the page was navigated to with. *)
Theorem histories_are_separate (toFixed1 : float → string)
    (formatMedicalResponse trim : string → string) (id_of : Z → string)
    (same_json : ReportData → ReportData → bool) (w : World) (e : Event) :
  let w' := step toFixed1 formatMedicalResponse trim id_of same_json w e in
  (of_page e = true → ls_floating (storage w') = ls_floating (storage w)) ∧
  (of_page e = false →
     ls_triage (storage w') = ls_triage (storage w) ∧
     ls_latest_result (storage w') = ls_latest_result (storage w)) ∧
  (ls_latest_result (storage w') ≠ ls_latest_result (storage w) →
     ∃ d, e = PageLocation (Some d) ∧ ls_latest_result (storage w') = Some d).
Proof.
  intros w'. subst w'. split; [|split].
  - intros He. rewrite ChatHistory.floating_step. by destruct e.
  - intros He. rewrite ChatHistory.triage_step, latest_result_step.
    by destruct e.
  - rewrite latest_result_step. destruct e; try done.
    destruct navigationData as [d|]; [|done]. intros _. by exists d.
Qed.

(** A chatbot about to send "hello" while a triage history is stored. *)
Definition with_triage_history : World :=
  mkWorld (TriagePage.mkState None [] false None "")
    (ChatBot.mkState [] "hello" false)
    (mkLocalStorage None (Some [mkMessage None user "earlier" (DateAt 0)]) None)
    [] 0 None.

Example chatbot_send_keeps_triage_history :
  let w :=
    ChatHistory.play with_triage_history
      [BotSend [] 2 3; BotAnswer 4 5 (inl (Some "Rest well."))] in
  length <$> ls_floating (storage w) = Some 2 ∧
  length <$> ls_triage (storage w) = Some 1.
Proof. vm_compute. done. Qed.

End StorageKeys.
